(** * PyTorchConv3D: the epoch loop of [train.py]

    A shallow embedding of the orchestration logic of [src/train.py]
    (lines 92-203): the construction of the phase list, the construction of
    the learning-rate scheduler, and the epoch loop with its scheduler step,
    best and periodic checkpoints and early stopping.

    What the script calls but does not define ([train_epoch],
    [validation_epoch], [scheduler.step], [state_dict], [save_checkpoint],
    [cleanup_checkpoint_dir], the builtin [int]) is a field of a [World]:
    every theorem holds for every behaviour of these functions.  The
    objects they mutate (model, optimizer, scheduler, file system) are one
    abstract [Heap].  These functions are taken to return: an exception
    they raise ends the script and is outside the model.  The summary the
    script prints in every epoch is not modelled and is taken not to
    raise.  Accuracies and losses are binary64 floats, epochs and the
    integer options unbounded integers. *)

From Stdlib Require Import ZArith Lia Ascii String.
From Stdlib Require Import Floats.PrimFloat Floats.SpecFloat Floats.FloatOps.
From Stdlib Require Import Floats.FloatAxioms.
From Stdlib Require Import DecimalString DecimalZ.
From stdpp Require Import gmap strings list list_numbers.

Local Open Scope Z_scope.

(** ** Python primitives used by the script *)

Module Py.

(** Exceptions the modelled statements can raise. *)
Inductive Exn : Type :=
| KeyError (key : string)
| NameError (name : string)
| AssertionError
| ZeroDivisionError
| ValueError.

(** [range(start, stop)] over unbounded integers. *)
Definition range (start stop : Z) : list Z := seqZ start (stop - start).

(** [a % b]: floor modulo, the sign follows the divisor; [b = 0] raises. *)
Definition mod_ (a b : Z) : Exn + Z :=
  if b =? 0 then inl ZeroDivisionError else inr (a `mod` b).

(** [l[start:]]: a negative start counts from the end, and every start is
    clamped to [0 .. len(l)]. *)
Definition slice_from {A : Type} (l : list A) (start : Z) : list A :=
  let n := Z.of_nat (length l) in
  let i := if start <? 0 then Z.max (n + start) 0 else Z.min start n in
  drop (Z.to_nat i) l.

(** [all(p(x) for x in l)]. *)
Definition all {A : Type} (p : A → bool) (l : list A) : bool := forallb p l.

(** Comparison of floats: IEEE 754 binary64, false on NaN. *)
Definition float_lt (a b : float) : bool := PrimFloat.ltb a b.
Definition float_gt (a b : float) : bool := PrimFloat.ltb b a.

(** [s.split(sep)] for a one-character separator. *)
Fixpoint split (sep : ascii) (s : string) : list string :=
  match s with
  | EmptyString => [EmptyString]
  | String c rest =>
      if Ascii.eqb c sep then EmptyString :: split sep rest
      else match split sep rest with
           | [] => [String c EmptyString]
           | w :: ws => String c w :: ws
           end
  end.

(** Decimal digits of a natural number, ["0"] for zero. *)
Definition digits (n : N) : string := NilZero.string_of_uint (N.to_uint n).

(** [s.zfill]-like left padding with ['0'] up to [width] characters. *)
Definition zero_pad (width : nat) (s : string) : string :=
  string_of_list_ascii (replicate (width - String.length s)%nat "0"%char)
  +:+ s.

(** ['{:03d}'.format(n)]: sign-aware zero padding to a total width of 3. *)
Definition format_03d (n : Z) : string :=
  if n <? 0 then "-" +:+ zero_pad 2 (digits (Z.to_N (- n)))
  else zero_pad 3 (digits (Z.to_N n)).

Definition starts_with_sep (s : string) : bool :=
  match s with
  | String c _ => Ascii.eqb c "/"%char
  | EmptyString => false
  end.

Fixpoint ends_with_sep (s : string) : bool :=
  match s with
  | EmptyString => false
  | String c EmptyString => Ascii.eqb c "/"%char
  | String _ rest => ends_with_sep rest
  end.

(** [os.path.join(a, b)] of [posixpath]. *)
Definition os_path_join (a b : string) : string :=
  if starts_with_sep b then b
  else if (String.length a =? 0)%nat || ends_with_sep a then a +:+ b
  else a +:+ "/" +:+ b.

End Py.

(** ** The script *)

(** The fields of [config] read between lines 92 and 203, with their values
    at line 124 (after [model_restore_checkpoint] may have reset
    [start_epoch]). *)
Record Config : Type := {
  lr_scheduler : string;
  lr_scheduler_milestones : string;
  lr_scheduler_gamma : float;
  lr_plateau_patience : Z;
  start_epoch : Z;
  num_epochs : Z;
  checkpoint_dir : string;
  checkpoint_frequency : Z;
  early_stopping_patience : Z
}.

(** The scheduler object built at lines 107-112. *)
Inductive Scheduler : Type :=
| ReduceLROnPlateau (mode : string) (factor : float) (patience : Z)
| MultiStepLR (milestones : list Z) (gamma : float).

(** The positional argument of [scheduler.step]. *)
Inductive StepArg : Type :=
| ArgLoss (val_loss : float)
| ArgEpoch (epoch : Z).

(** What an epoch function returns: loss, accuracy, duration. *)
Definition EpochResult : Type := float * float * float.
Definition result_loss (r : EpochResult) : float := r.1.1.
Definition result_acc (r : EpochResult) : float := r.1.2.

Section Script.

Context {Loader Heap ModelDict OptimDict : Type}.

(** The functions the script calls and does not define. *)
Record World : Type := {
  py_int : string → option Z;
  train_epoch : Loader → Z → Heap → EpochResult * Heap;
  validation_epoch : Loader → Z → Heap → EpochResult * Heap;
  scheduler_step : Scheduler → StepArg → Heap → Heap;
  model_state_dict : Heap → ModelDict;
  optimizer_state_dict : Heap → OptimDict;
  save_checkpoint : string → Z → ModelDict → OptimDict → Heap → Heap;
  cleanup_checkpoint_dir : Heap → Heap
}.

(** The calls the script makes, in the order it makes them, each with the
    arguments it passes (and, for the epoch functions, what came back). *)
Inductive Event : Type :=
| EvTrainEpoch (epoch : Z) (data_loader : Loader) (ret : EpochResult)
| EvValidationEpoch (epoch : Z) (data_loader : Loader) (ret : EpochResult)
| EvSchedulerStep (scheduler : Scheduler) (arg : StepArg)
| EvSaveCheckpoint (path : string) (epoch : Z)
    (model_state : ModelDict) (optimizer_state : OptimDict)
| EvCleanupCheckpointDir.

(** The module-level variables of the loop.  [val_loss] and [val_acc] are
    unbound until the first validation phase assigns them. *)
Record Store : Type := {
  heap : Heap;
  val_loss : option float;
  val_acc : option float;
  val_acc_history : list float;
  best_val_acc : float
}.

Definition set_heap (h : Heap) (s : Store) : Store :=
  {| heap := h; val_loss := val_loss s; val_acc := val_acc s;
     val_acc_history := val_acc_history s; best_val_acc := best_val_acc s |}.

Definition set_validation (r : EpochResult) (s : Store) : Store :=
  {| heap := heap s; val_loss := Some (result_loss r);
     val_acc := Some (result_acc r);
     val_acc_history := val_acc_history s; best_val_acc := best_val_acc s |}.

Definition append_history (acc : float) (s : Store) : Store :=
  {| heap := heap s; val_loss := val_loss s; val_acc := val_acc s;
     val_acc_history := val_acc_history s ++ [acc];
     best_val_acc := best_val_acc s |}.

Definition set_best_val_acc (acc : float) (s : Store) : Store :=
  {| heap := heap s; val_loss := val_loss s; val_acc := val_acc s;
     val_acc_history := val_acc_history s; best_val_acc := acc |}.

(** Lines 125-126. *)
Definition init_store (h : Heap) : Store :=
  {| heap := h; val_loss := None; val_acc := None;
     val_acc_history := []; best_val_acc := 0%float |}.

(** *** Statements: a computation changes the store, appends to the trace
    of calls, and returns or raises.  The store and the trace survive an
    exception. *)
Definition M (A : Type) : Type := Store → (Py.Exn + A) * Store * list Event.

Definition ret {A} (a : A) : M A := λ s, (inr a, s, []).

Definition bind {A B} (m : M A) (k : A → M B) : M B := λ s,
  match m s with
  | (inl e, s1, evs) => (inl e, s1, evs)
  | (inr a, s1, evs) =>
      match k a s1 with
      | (r, s2, evs') => (r, s2, evs ++ evs')
      end
  end.

Definition raise {A} (e : Py.Exn) : M A := λ s, (inl e, s, []).
Definition gets {A} (f : Store → A) : M A := λ s, (inr (f s), s, []).
Definition modify (f : Store → Store) : M unit := λ s, (inr tt, f s, []).

(** Reading a variable that may be unbound. *)
Definition read_var {A} (name : string) (f : Store → option A) : M A := λ s,
  match f s with
  | Some v => (inr v, s, [])
  | None => (inl (Py.NameError name), s, [])
  end.

(** Lifting a pure operation that may raise. *)
Definition lift {A} (r : Py.Exn + A) : M A := λ s, (r, s, []).

(** A call to an external function: it transforms the heap and is
    recorded with its result. *)
Definition call {R} (ev : R → Event) (f : Heap → R * Heap) : M R := λ s,
  match f (heap s) with
  | (r, h) => (inr r, set_heap h s, [ev r])
  end.

Definition call_ (ev : Event) (f : Heap → Heap) : M unit :=
  call (λ _, ev) (λ h, (tt, f h)).

Notation "'let*' x ':=' m 'in' k" := (bind m (λ x, k))
  (at level 10, x name, m at level 100, k at level 200, only parsing).
Notation "m ';;' k" := (bind m (λ _, k))
  (at level 100, k at level 200, right associativity, only parsing).

Definition when (b : bool) (m : M unit) : M unit := if b then m else ret tt.

(** [for x in l: body x] without [break]. *)
Fixpoint for_each {A} (l : list A) (body : A → M unit) : M unit :=
  match l with
  | [] => ret tt
  | x :: rest => body x;; for_each rest body
  end.

Variable W : World.
Variable config : Config.
Variable data_loaders : gmap string Loader.

(** [key in d] and [d[key]] on a dict. *)
Definition dict_contains (key : string) : bool :=
  match data_loaders !! key with
  | Some _ => true
  | None => false
  end.

Definition dict_get (key : string) : M Loader := λ s,
  match data_loaders !! key with
  | Some v => (inr v, s, [])
  | None => (inl (Py.KeyError key), s, [])
  end.

(** Line 92. *)
Definition phases : list string :=
  if dict_contains "validation" then ["train"; "validation"] else ["train"].

(** [name in phases] on the list. *)
Definition in_phases (name : string) : bool :=
  existsb (String.eqb name) phases.

(** [[int(x) for x in l]]: the first failing conversion raises. *)
Fixpoint int_each (l : list string) : Py.Exn + list Z :=
  match l with
  | [] => inr []
  | x :: rest =>
      match py_int W x with
      | None => inl Py.ValueError
      | Some n =>
          match int_each rest with
          | inl e => inl e
          | inr ns => inr (n :: ns)
          end
      end
  end.

(** Lines 107-112, with assertions enabled. *)
Definition make_scheduler : Py.Exn + Scheduler :=
  if String.eqb (lr_scheduler config) "plateau" then
    if in_phases "validation" then
      inr (ReduceLROnPlateau "min" (lr_scheduler_gamma config)
             (lr_plateau_patience config))
    else inl Py.AssertionError
  else
    match int_each (Py.split "," (lr_scheduler_milestones config)) with
    | inl e => inl e
    | inr milestones =>
        inr (MultiStepLR milestones (lr_scheduler_gamma config))
    end.

Section Loop.

Variable scheduler : Scheduler.

(** Lines 133-160: the body of [for phase in phases]. *)
Definition run_phase (epoch : Z) (phase : string) : M unit :=
  if String.eqb phase "train" then
    let* dl := dict_get "train" in
    let* _ := call (EvTrainEpoch epoch dl) (train_epoch W dl epoch) in
    ret tt
  else if String.eqb phase "validation" then
    let* dl := dict_get "validation" in
    let* r := call (EvValidationEpoch epoch dl)
                (validation_epoch W dl epoch) in
    modify (set_validation r);;
    modify (append_history (result_acc r))
  else ret tt.

(** Lines 163-166. *)
Definition update_learning_rate (epoch : Z) : M unit :=
  if String.eqb (lr_scheduler config) "plateau" then
    let* loss := read_var "val_loss" val_loss in
    call_ (EvSchedulerStep scheduler (ArgLoss loss))
      (scheduler_step W scheduler (ArgLoss loss))
  else
    call_ (EvSchedulerStep scheduler (ArgEpoch epoch))
      (scheduler_step W scheduler (ArgEpoch epoch)).

(** [save_checkpoint(path, epoch, model.state_dict(),
    optimizer.state_dict())]: both dictionaries are read from the heap
    as it is at the call. *)
Definition do_save_checkpoint (path : string) (epoch : Z) : M unit :=
  let* model_state := gets (λ s, model_state_dict W (heap s)) in
  let* optimizer_state := gets (λ s, optimizer_state_dict W (heap s)) in
  call_ (EvSaveCheckpoint path epoch model_state optimizer_state)
    (save_checkpoint W path epoch model_state optimizer_state).

Definition best_checkpoint_path : string :=
  Py.os_path_join (checkpoint_dir config) "save_best.pth".

Definition periodic_checkpoint_path (epoch : Z) : string :=
  Py.os_path_join (checkpoint_dir config)
    ("save_" +:+ Py.format_03d (epoch + 1) +:+ ".pth").

(** Lines 182-187.  [and] evaluates [val_acc > best_val_acc] only when
    ['validation' in phases]. *)
Definition save_best (epoch : Z) : M unit :=
  let* is_best :=
    if in_phases "validation" then
      let* acc := read_var "val_acc" val_acc in
      let* best := gets best_val_acc in
      ret (Py.float_gt acc best)
    else ret false in
  when is_best (
    do_save_checkpoint best_checkpoint_path epoch;;
    let* acc := read_var "val_acc" val_acc in
    modify (set_best_val_acc acc)).

(** Lines 190-194. *)
Definition save_periodic (epoch : Z) : M unit :=
  let* r := lift (Py.mod_ epoch (checkpoint_frequency config)) in
  when (r =? 0) (
    do_save_checkpoint (periodic_checkpoint_path epoch) epoch;;
    call_ EvCleanupCheckpointDir (cleanup_checkpoint_dir W)).

(** Lines 197-203: [true] is [break]. *)
Definition early_stopping (epoch : Z) : M bool :=
  if early_stopping_patience config <? epoch then
    let* history := gets val_acc_history in
    let* best := gets best_val_acc in
    let last_val_acc :=
      Py.slice_from history (- early_stopping_patience config) in
    ret (Py.all (λ acc, Py.float_lt acc best) last_val_acc)
  else ret false.

(** Lines 131-203: the body of the epoch loop. *)
Definition epoch_body (epoch : Z) : M bool :=
  for_each phases (run_phase epoch);;
  update_learning_rate epoch;;
  save_best epoch;;
  save_periodic epoch;;
  early_stopping epoch.

(** One iteration as the loop ran it. *)
Record EpochRecord : Type := {
  ep : Z;
  before : Store;
  events : list Event;
  after : Store;
  result : Py.Exn + bool
}.

Inductive Outcome : Type :=
| Finished
| EarlyStopped (epoch : Z)
| Raised (e : Py.Exn).

Record Run : Type := {
  log : list EpochRecord;
  final : Store;
  outcome : Outcome
}.

Definition run_epoch (epoch : Z) (s : Store) : EpochRecord :=
  match epoch_body epoch s with
  | (r, s', evs) =>
      {| ep := epoch; before := s; events := evs; after := s'; result := r |}
  end.

Definition cons_log (rec : EpochRecord) (r : Run) : Run :=
  {| log := rec :: log r; final := final r; outcome := outcome r |}.

(** Line 128: [for epoch in epochs], left by [break] or by an exception. *)
Fixpoint epoch_loop (epochs : list Z) (s : Store) : Run :=
  match epochs with
  | [] => {| log := []; final := s; outcome := Finished |}
  | epoch :: rest =>
      let rec := run_epoch epoch s in
      match result rec with
      | inl e => {| log := [rec]; final := after rec; outcome := Raised e |}
      | inr true =>
          {| log := [rec]; final := after rec;
             outcome := EarlyStopped epoch |}
      | inr false => cons_log rec (epoch_loop rest (after rec))
      end
  end.

End Loop.

(** Lines 92-203, from the heap [h] the script has built by line 124. *)
Definition main (h : Heap) : Run :=
  match make_scheduler with
  | inl e => {| log := []; final := init_store h; outcome := Raised e |}
  | inr scheduler =>
      epoch_loop scheduler
        (Py.range (start_epoch config) (num_epochs config + 1))
        (init_store h)
  end.

End Script.

Arguments World : clear implicits.
Arguments Event : clear implicits.
Arguments Store : clear implicits.
Arguments EpochRecord : clear implicits.
Arguments Run : clear implicits.

(** ** Reading a trace *)

Section Trace.

Context {Loader Heap ModelDict OptimDict : Type}.
Variable config : Config.

Abbreviation Ev := (Event Loader ModelDict OptimDict).

Definition is_phase_event (ev : Ev) : bool :=
  match ev with
  | EvTrainEpoch _ _ _ | EvValidationEpoch _ _ _ => true
  | _ => false
  end.

Definition is_step_event (ev : Ev) : bool :=
  match ev with
  | EvSchedulerStep _ _ => true
  | _ => false
  end.

Definition is_cleanup_event (ev : Ev) : bool :=
  match ev with
  | EvCleanupCheckpointDir => true
  | _ => false
  end.

(** A write of [save_best.pth]. *)
Definition is_best_save (ev : Ev) : bool :=
  match ev with
  | EvSaveCheckpoint path _ _ _ => String.eqb path (best_checkpoint_path config)
  | _ => false
  end.

(** A write of the periodic checkpoint file of the epoch it stores. *)
Definition is_periodic_save (ev : Ev) : bool :=
  match ev with
  | EvSaveCheckpoint path epoch _ _ =>
      String.eqb path (periodic_checkpoint_path config epoch)
  | _ => false
  end.

Definition count (p : Ev → bool) (evs : list Ev) : nat :=
  length (List.filter p evs).

End Trace.

(** The last [n] elements of a list, all of it when it has fewer. *)
Definition last_n {A : Type} (n : nat) (l : list A) : list A :=
  drop (length l - n) l.

(** The integer a decimal numeral denotes, leading zeros allowed. *)
Definition read_number (s : string) : option Z :=
  Z.of_int <$> NilZero.int_of_string s.

(** ** One epoch in closed form

    What [run_epoch] computes from the store [s] when the training loader
    exists and the assertion of line 108 has passed: the heaps between the
    calls, the calls made, the store left and the result. *)

Section Summary.

Context {Loader Heap ModelDict OptimDict : Type}.
Variable W : World Loader Heap ModelDict OptimDict.
Variable config : Config.
Variable data_loaders : gmap string Loader.
Variable scheduler : Scheduler.
Variable epoch : Z.
Variable s : Store Heap.
Variable train_loader : Loader.

Definition is_plateau : bool := String.eqb (lr_scheduler config) "plateau".

Definition trained : EpochResult * Heap :=
  train_epoch W train_loader epoch (heap s).

Definition validated : option (EpochResult * Heap) :=
  match data_loaders !! "validation" with
  | Some dl => Some (validation_epoch W dl epoch trained.2)
  | None => None
  end.

Definition validation_events : list (Event Loader ModelDict OptimDict) :=
  match data_loaders !! "validation" with
  | Some dl =>
      [EvValidationEpoch epoch dl (validation_epoch W dl epoch trained.2).1]
  | None => []
  end.

Definition heap_after_phases : Heap :=
  match validated with
  | Some v => v.2
  | None => trained.2
  end.

Definition step_arg : StepArg :=
  match validated with
  | Some v => if is_plateau then ArgLoss (result_loss v.1) else ArgEpoch epoch
  | None => ArgEpoch epoch
  end.

Definition heap_stepped : Heap :=
  scheduler_step W scheduler step_arg heap_after_phases.

Definition improved : bool :=
  match validated with
  | Some v => Py.float_gt (result_acc v.1) (best_val_acc s)
  | None => false
  end.

Definition best_save : Event Loader ModelDict OptimDict :=
  EvSaveCheckpoint (best_checkpoint_path config) epoch
    (model_state_dict W heap_stepped) (optimizer_state_dict W heap_stepped).

Definition best_events : list (Event Loader ModelDict OptimDict) :=
  if improved then [best_save] else [].

Definition heap_after_best : Heap :=
  if improved then
    save_checkpoint W (best_checkpoint_path config) epoch
      (model_state_dict W heap_stepped) (optimizer_state_dict W heap_stepped)
      heap_stepped
  else heap_stepped.

Definition periodic_due : bool :=
  negb (checkpoint_frequency config =? 0)
  && (epoch `mod` checkpoint_frequency config =? 0).

Definition periodic_save : Event Loader ModelDict OptimDict :=
  EvSaveCheckpoint (periodic_checkpoint_path config epoch) epoch
    (model_state_dict W heap_after_best)
    (optimizer_state_dict W heap_after_best).

Definition periodic_events : list (Event Loader ModelDict OptimDict) :=
  if periodic_due then [periodic_save; EvCleanupCheckpointDir] else [].

Definition heap_after_periodic : Heap :=
  if periodic_due then
    cleanup_checkpoint_dir W
      (save_checkpoint W (periodic_checkpoint_path config epoch) epoch
         (model_state_dict W heap_after_best)
         (optimizer_state_dict W heap_after_best) heap_after_best)
  else heap_after_best.

Definition store_after : Store Heap := {|
  heap := heap_after_periodic;
  val_loss :=
    match validated with
    | Some v => Some (result_loss v.1)
    | None => val_loss s
    end;
  val_acc :=
    match validated with
    | Some v => Some (result_acc v.1)
    | None => val_acc s
    end;
  val_acc_history :=
    match validated with
    | Some v => val_acc_history s ++ [result_acc v.1]
    | None => val_acc_history s
    end;
  best_val_acc :=
    match validated with
    | Some v => if improved then result_acc v.1 else best_val_acc s
    | None => best_val_acc s
    end
|}.

(** The test of lines 197-199 on a store. *)
Definition stop_test (st : Store Heap) : bool :=
  (early_stopping_patience config <? epoch)
  && Py.all (λ acc, Py.float_lt acc (best_val_acc st))
       (Py.slice_from (val_acc_history st)
          (- early_stopping_patience config)).

Definition epoch_result : Py.Exn + bool :=
  if checkpoint_frequency config =? 0 then inl Py.ZeroDivisionError
  else inr (stop_test store_after).

Definition epoch_events : list (Event Loader ModelDict OptimDict) :=
  EvTrainEpoch epoch train_loader trained.1
    :: validation_events
    ++ [EvSchedulerStep scheduler step_arg]
    ++ best_events ++ periodic_events.

End Summary.

(** ** The early-stopping sentence of the specification, read literally

    "The loop stops early exactly when the epoch index exceeds the patience
    and each of the last [early_stopping_patience] recorded validation
    accuracies is strictly below the best validation accuracy seen so
    far", for every iteration of a run. *)
Definition stops_on_last_window {Loader Heap ModelDict OptimDict : Type}
    (config : Config) (r : Run Loader Heap ModelDict OptimDict) : Prop :=
  ∀ (i : nat) (rec : EpochRecord Loader Heap ModelDict OptimDict),
    log r !! i = Some rec →
    result rec = inr true ↔
    early_stopping_patience config < ep rec
    ∧ Forall (λ acc, Py.float_lt acc (best_val_acc (after rec)) = true)
        (last_n (Z.to_nat (early_stopping_patience config))
           (val_acc_history (after rec))).

(** ** Reading a whole run *)

Section WholeRun.

Context {Loader Heap ModelDict OptimDict : Type}.

(** All the calls of a run, in the order they were made. *)
Definition trace (r : Run Loader Heap ModelDict OptimDict)
    : list (Event Loader ModelDict OptimDict) :=
  concat (events <$> log r).

(** The accuracies the validation calls of a trace returned. *)
Definition validation_accs (evs : list (Event Loader ModelDict OptimDict))
    : list float :=
  omap (λ ev, match ev with
              | EvValidationEpoch _ _ r => Some (result_acc r)
              | _ => None
              end) evs.

(** The epochs the training calls of a trace were given. *)
Definition train_epochs (evs : list (Event Loader ModelDict OptimDict))
    : list Z :=
  omap (λ ev, match ev with
              | EvTrainEpoch e _ _ => Some e
              | _ => None
              end) evs.

(** The epochs the validation calls of a trace were given. *)
Definition validation_epochs (evs : list (Event Loader ModelDict OptimDict))
    : list Z :=
  omap (λ ev, match ev with
              | EvValidationEpoch e _ _ => Some e
              | _ => None
              end) evs.

End WholeRun.

(** What lines 182-187 make of [best_val_acc] when a new accuracy comes
    in, and the result of doing so along a history, from the 0.0 of
    line 126. *)
Definition keep_best (best acc : float) : float :=
  if Py.float_gt acc best then acc else best.

Definition running_best (history : list float) : float :=
  fold_left keep_best history 0%float.

(** ** The end of the script

    Lines 50-54 create the summary writer, or bind [writer] to [None] when
    [config.no_tensorboard] is set; lines 206-210, reached unless the loop
    raised, export its scalars and close it.  The three options of
    [config] read there are parameters. *)

Inductive Writer : Type :=
| SummaryWriter (log_dir : string).

Inductive ScriptExn : Type :=
| LoopRaised (e : Py.Exn)
| AttributeError (type_name attribute : string).

Inductive ClosingEvent : Type :=
| EvExportScalarsToJson (writer : Writer) (path : string)
| EvWriterClose (writer : Writer).

(** Lines 50-54. *)
Definition make_writer (no_tensorboard : bool) (log_dir : string)
    : option Writer :=
  if negb no_tensorboard then Some (SummaryWriter log_dir) else None.

Section Closing.

Context {Loader Heap ModelDict OptimDict : Type}.
Variable W : World Loader Heap ModelDict OptimDict.

(** The two methods of the writer the script calls. *)
Variable export_scalars_to_json : Writer → string → Heap → Heap.
Variable writer_close : Writer → Heap → Heap.

(** A run of the script: the loop, the calls made after it, the heap they
    leave, and the exception that ended the script ([None] when it printed
    its last line). *)
Record ScriptRun : Type := {
  training : Run Loader Heap ModelDict OptimDict;
  closing : list ClosingEvent;
  closed_heap : Heap;
  ended : option ScriptExn
}.

(** Lines 206-210. *)
Definition close_script (writer : option Writer) (save_dir : string)
    (r : Run Loader Heap ModelDict OptimDict) : ScriptRun :=
  match outcome r with
  | Raised e =>
      {| training := r; closing := []; closed_heap := heap (final r);
         ended := Some (LoopRaised e) |}
  | _ =>
      match writer with
      | None =>
          {| training := r; closing := []; closed_heap := heap (final r);
             ended :=
               Some (AttributeError "NoneType" "export_scalars_to_json") |}
      | Some w =>
          let path := Py.os_path_join save_dir "all_scalars.json" in
          {| training := r;
             closing := [EvExportScalarsToJson w path; EvWriterClose w];
             closed_heap :=
               writer_close w (export_scalars_to_json w path (heap (final r)));
             ended := None |}
      end
  end.

Definition script (no_tensorboard : bool) (log_dir save_dir : string)
    (config : Config) (data_loaders : gmap string Loader) (h : Heap)
    : ScriptRun :=
  close_script (make_writer no_tensorboard log_dir) save_dir
    (main W config data_loaders h).

End Closing.

Arguments ScriptRun : clear implicits.

(** ** A concrete world, for running the model *)

Module Demo.

(** The heap counts the updates of the model and of the optimizer. *)
Definition Heap : Type := nat * nat.

(** Validation accuracy is a function of the epoch; training always
    reports loss 1, accuracy 0.5 and a duration of 60 seconds. *)
Definition world (acc_of : Z → float) : World string Heap nat nat := {|
  py_int := read_number;
  train_epoch := λ _ _ h, ((1%float, 0.5%float, 60%float), (S h.1, S h.2));
  validation_epoch := λ _ e h, ((2%float, acc_of e, 30%float), h);
  scheduler_step := λ _ _ h, (h.1, S h.2);
  model_state_dict := fst;
  optimizer_state_dict := snd;
  save_checkpoint := λ _ _ _ _ h, h;
  cleanup_checkpoint_dir := λ h, h
|}.

Definition both_loaders : gmap string string :=
  <["train" := "train-set"]> (<["validation" := "validation-set"]> ∅).

Definition train_only : gmap string string := <["train" := "train-set"]> ∅.

Definition cfg (sched : string) (start num freq patience : Z) : Config := {|
  lr_scheduler := sched;
  lr_scheduler_milestones := "30,60";
  lr_scheduler_gamma := 0.125%float;
  lr_plateau_patience := 10;
  start_epoch := start;
  num_epochs := num;
  checkpoint_dir := "/tmp/checkpoints";
  checkpoint_frequency := freq;
  early_stopping_patience := patience
|}.

(** Accuracy 0.75 in epoch 1, 0.5 in every other epoch. *)
Definition peak_at_1 (e : Z) : float :=
  if e =? 1 then 0.75%float else 0.5%float.

(** Accuracy 0.75 in epoch 0, 0.5 in every other epoch. *)
Definition peak_at_0 (e : Z) : float :=
  if e =? 0 then 0.75%float else 0.5%float.

(** The same accuracy in every epoch. *)
Definition flat (e : Z) : float := 0.5%float.

(** Milestone schedule, validation configured, epochs 0..5, a periodic
    checkpoint every second epoch, patience 2. *)
Definition run_milestones : Run string Heap nat nat :=
  main (world peak_at_1) (cfg "multistep" 0 5 2 2) both_loaders (0, 0)%nat.

(** The same with the plateau schedule. *)
Definition run_plateau : Run string Heap nat nat :=
  main (world peak_at_1) (cfg "plateau" 0 5 2 2) both_loaders (0, 0)%nat.

(** No validation loader. *)
Definition run_train_only : Run string Heap nat nat :=
  main (world peak_at_1) (cfg "multistep" 0 5 2 2) train_only (0, 0)%nat.

(** The milestone run with the best accuracy in the first epoch. *)
Definition run_peak_0 : Run string Heap nat nat :=
  main (world peak_at_0) (cfg "multistep" 0 5 2 2) both_loaders (0, 0)%nat.

(** Patience 0, constant accuracy. *)
Definition run_patience_0 : Run string Heap nat nat :=
  main (world flat) (cfg "multistep" 0 3 1 0) both_loaders (0, 0)%nat.

(** The record of iteration [i] of a run (a record of no calls when the
    run has fewer iterations). *)
Definition record_at (r : Run string Heap nat nat) (i : nat)
    : EpochRecord string Heap nat nat :=
  match log r !! i with
  | Some rec => rec
  | None =>
      {| ep := 0; before := init_store (0, 0)%nat; events := [];
         after := init_store (0, 0)%nat; result := inr false |}
  end.

(** No loader at all. *)
Definition no_loaders : gmap string string := ∅.

(** A negative accuracy in every epoch. *)
Definition negative (e : Z) : float := (-1)%float.

(** The milestone run without a training loader. *)
Definition run_no_train : Run string Heap nat nat :=
  main (world flat) (cfg "multistep" 0 5 2 2) no_loaders (0, 0)%nat.

(** A checkpoint frequency of 0. *)
Definition run_frequency_0 : Run string Heap nat nat :=
  main (world flat) (cfg "multistep" 0 3 0 2) both_loaders (0, 0)%nat.

(** Patience 0 and negative accuracies. *)
Definition run_negative : Run string Heap nat nat :=
  main (world negative) (cfg "multistep" 0 3 1 0) both_loaders (0, 0)%nat.

(** NaN in epoch 1, 0.5 in every other epoch. *)
Definition nan_at_1 (e : Z) : float :=
  if e =? 1 then PrimFloat.nan else 0.5%float.

(** The milestone run with a NaN accuracy in epoch 1. *)
Definition run_nan : Run string Heap nat nat :=
  main (world nan_at_1) (cfg "multistep" 0 5 2 2) both_loaders (0, 0)%nat.

(** The plateau policy without a validation loader. *)
Definition run_unasserted : Run string Heap nat nat :=
  main (world flat) (cfg "plateau" 0 5 2 2) train_only (0, 0)%nat.

(** The milestone run as a whole script with [no_tensorboard] set; the
    writer methods leave the heap alone. *)
Definition script_no_tensorboard : ScriptRun string Heap nat nat :=
  script (world peak_at_1) (λ _ _ h, h) (λ _ h, h) true "/tmp/log" "/tmp/out"
    (cfg "multistep" 0 5 2 2) both_loaders (0, 0)%nat.

End Demo.

(** * Properties *)

(** Case analysis on the first integer comparison of the goal. *)
Ltac case_ltb :=
  match goal with
  | |- context [?a <? ?b] => destruct (Z.ltb_spec a b)
  end.

(** ** The Python primitives *)

Section PyFacts.

Example format_03d_examples :
  Py.format_03d 5 = "005" ∧ Py.format_03d 0 = "000"
  ∧ Py.format_03d 1234 = "1234" ∧ Py.format_03d (-5) = "-05".
Proof. repeat split. Qed.

Example slice_from_examples :
  Py.slice_from [1; 2; 3; 4] (- 2) = [3; 4]
  ∧ Py.slice_from [1; 2; 3; 4] (- 7) = [1; 2; 3; 4]
  ∧ Py.slice_from [1; 2; 3; 4] (- 0) = [1; 2; 3; 4]
  ∧ Py.slice_from [1; 2; 3; 4] (- (-1)) = [2; 3; 4].
Proof. repeat split. Qed.

Example split_examples :
  Py.split "," "30,60" = ["30"; "60"] ∧ Py.split "," "" = [""]
  ∧ Py.split "," "1,,2" = ["1"; ""; "2"].
Proof. repeat split. Qed.

Example os_path_join_examples :
  Py.os_path_join "/tmp/ck" "save_best.pth" = "/tmp/ck/save_best.pth"
  ∧ Py.os_path_join "/tmp/ck/" "save_best.pth" = "/tmp/ck/save_best.pth"
  ∧ Py.os_path_join "" "save_best.pth" = "save_best.pth".
Proof. repeat split. Qed.

Example mod_examples :
  Py.mod_ 7 2 = inr 1 ∧ Py.mod_ (-7) 2 = inr 1 ∧ Py.mod_ 7 (-2) = inr (-1)
  ∧ Py.mod_ 7 0 = inl Py.ZeroDivisionError.
Proof. repeat split. Qed.

Lemma slice_from_nil {A : Type} (start : Z) : Py.slice_from (@nil A) start = [].
Proof. unfold Py.slice_from. by rewrite drop_nil. Qed.

(** [l[-0:]] is [l[0:]]: the whole list. *)
Lemma slice_from_zero {A : Type} (l : list A) : Py.slice_from l (- 0) = l.
Proof. unfold Py.slice_from. simpl. by rewrite Z.min_l by lia. Qed.

(** For a positive [k], [l[-k:]] holds the last [k] elements. *)
Lemma slice_from_last_n {A : Type} (l : list A) (k : Z) :
  0 < k → Py.slice_from l (- k) = last_n (Z.to_nat k) l.
Proof.
  intros Hk. unfold Py.slice_from, last_n.
  destruct (Z.ltb_spec (- k) 0) as [_|?]; [|lia].
  f_equal. lia.
Qed.

Lemma all_Forall {A : Type} (p : A → bool) (l : list A) :
  Py.all p l = true ↔ Forall (λ x, p x = true) l.
Proof.
  unfold Py.all. induction l as [|x l IH]; simpl.
  - split; [constructor | reflexivity].
  - rewrite andb_true_iff, IH, Forall_cons. reflexivity.
Qed.

Lemma append_cons (c : ascii) (p a : string) :
  String c p +:+ a = String c (p +:+ a).
Proof. reflexivity. Qed.

Lemma append_cancel_l (p a b : string) : p +:+ a = p +:+ b → a = b.
Proof.
  induction p as [|c p IH]; [done|].
  rewrite !append_cons. intros [=]; auto.
Qed.

Lemma os_path_join_inj (dir a b : string) :
  Py.starts_with_sep a = false → Py.starts_with_sep b = false →
  Py.os_path_join dir a = Py.os_path_join dir b → a = b.
Proof.
  unfold Py.os_path_join. intros -> ->.
  destruct (_ || _); intros H; apply append_cancel_l in H; [done|].
  by apply append_cancel_l in H.
Qed.

(** Zero padding is read back as leading zeros. *)
Lemma uint_of_zeros (k : nat) (s : string) :
  NilEmpty.uint_of_string
    (string_of_list_ascii (replicate k "0"%char) +:+ s)
  = Nat.iter k Decimal.D0 <$> NilEmpty.uint_of_string s.
Proof.
  induction k as [|k IH].
  - change (NilEmpty.uint_of_string s = id <$> NilEmpty.uint_of_string s).
    by destruct (NilEmpty.uint_of_string s).
  - change (uint_of_char "0"
              (NilEmpty.uint_of_string
                 (string_of_list_ascii (replicate k "0"%char) +:+ s))
            = Nat.iter (S k) Decimal.D0 <$> NilEmpty.uint_of_string s).
    rewrite IH. by destruct (NilEmpty.uint_of_string s).
Qed.

Lemma of_uint_zeros (k : nat) (d : Decimal.uint) :
  Pos.of_uint (Nat.iter k Decimal.D0 d) = Pos.of_uint d.
Proof. induction k as [|k IH]; simpl; [done | apply IH]. Qed.

Lemma uint_of_digits (n : N) :
  ∃ d, NilEmpty.uint_of_string (Py.digits n) = Some d ∧ Pos.of_uint d = n.
Proof.
  unfold Py.digits. destruct (N.to_uint n) eqn:Hd.
  1: { exists (Decimal.D0 Decimal.Nil). split; [done|]. destruct n; [done|].
       simpl in Hd. pose proof (DecimalPos.Unsigned.to_of (Pos.to_uint p)).
       pose proof (DecimalN.Unsigned.of_to (Npos p)) as Hn.
       unfold N.of_uint, N.to_uint in Hn. by rewrite Hd in Hn. }
  all: rewrite <- Hd; eexists; split;
    [ rewrite Hd; simpl; rewrite NilEmpty.usu; reflexivity
    | rewrite <- Hd; apply (DecimalN.Unsigned.of_to n) ].
Qed.

Lemma uint_of_zero_pad (w : nat) (n : N) :
  ∃ d, NilEmpty.uint_of_string (Py.zero_pad w (Py.digits n)) = Some d
       ∧ Pos.of_uint d = n.
Proof.
  destruct (uint_of_digits n) as (d & Hd & Hn).
  exists (Nat.iter (w - String.length (Py.digits n)) Decimal.D0 d).
  unfold Py.zero_pad. rewrite uint_of_zeros, Hd, of_uint_zeros. done.
Qed.

Lemma digits_cons (n : N) : ∃ a s', Py.digits n = String a s'.
Proof.
  unfold Py.digits. destruct (N.to_uint n); simpl; eauto.
Qed.

Lemma zero_pad_cons (w : nat) (n : N) :
  ∃ a s', Py.zero_pad w (Py.digits n) = String a s'.
Proof.
  destruct (digits_cons n) as (a & s' & ->). unfold Py.zero_pad.
  destruct (replicate _ _); rewrite ?append_cons; eauto.
Qed.

(** What [format_03d] prints reads back as the number printed. *)
Lemma read_format_03d (n : Z) : read_number (Py.format_03d n) = Some n.
Proof.
  unfold read_number, Py.format_03d.
  destruct (Z.ltb_spec n 0) as [Hneg|Hpos].
  - destruct (uint_of_zero_pad 2 (Z.to_N (- n))) as (d & Hd & Hn).
    destruct (zero_pad_cons 2 (Z.to_N (- n))) as (a & s' & Hs).
    rewrite append_cons. change ("" +:+ ?x) with x.
    unfold NilZero.int_of_string, NilZero.uint_of_string.
    rewrite Ascii.eqb_refl, Hs, <- Hs, Hd. simpl.
    unfold Z.of_uint. rewrite Hn. f_equal. lia.
  - destruct (uint_of_zero_pad 3 (Z.to_N n)) as (d & Hd & Hn).
    destruct (zero_pad_cons 3 (Z.to_N n)) as (a & s' & Hs).
    rewrite Hs in *.
    unfold NilZero.int_of_string, NilZero.uint_of_string.
    destruct (Ascii.eqb_spec a "-") as [->|_].
    { simpl in Hd. by destruct (NilEmpty.uint_of_string s'). }
    rewrite Hd. simpl. unfold Z.of_uint. rewrite Hn. f_equal. lia.
Qed.

Lemma format_03d_not_best (n : Z) (tail : string) :
  Py.format_03d n +:+ tail ≠ "best.pth".
Proof.
  pose proof (read_format_03d n) as Hr. unfold read_number in Hr.
  destruct (Py.format_03d n) as [|a s'] eqn:Hf; [done|].
  rewrite append_cons. intros [= -> _]. simpl in Hr.
  unfold NilZero.uint_of_string in Hr. simpl in Hr.
  by destruct (NilEmpty.uint_of_string s').
Qed.

(** The periodic file of an epoch is never [save_best.pth]. *)
Lemma periodic_path_not_best (config : Config) (epoch : Z) :
  periodic_checkpoint_path config epoch ≠ best_checkpoint_path config.
Proof.
  unfold periodic_checkpoint_path, best_checkpoint_path. intros H.
  apply os_path_join_inj in H; [|done..].
  rewrite !append_cons in H. injection H as H.
  by apply format_03d_not_best in H.
Qed.

End PyFacts.

(** ** The loop *)

Section LoopFacts.

Context {Loader Heap ModelDict OptimDict : Type}.
Variable W : World Loader Heap ModelDict OptimDict.
Variable config : Config.
Variable data_loaders : gmap string Loader.

Abbreviation Rec := (EpochRecord Loader Heap ModelDict OptimDict).
Abbreviation loop := (epoch_loop W config data_loaders).
Abbreviation iteration := (run_epoch W config data_loaders).

Lemma run_epoch_ep sched e s : ep (iteration sched e s) = e.
Proof. unfold run_epoch. by destruct (epoch_body _ _ _ _ _ _) as [[??]?]. Qed.

Lemma run_epoch_before sched e s : before (iteration sched e s) = s.
Proof. unfold run_epoch. by destruct (epoch_body _ _ _ _ _ _) as [[??]?]. Qed.

(** Every logged record is an iteration of the body, on the epoch the
    range gives it, from a store that satisfies whatever the iterations
    preserve. *)
Lemma epoch_loop_invariant (P : Store Heap → Prop) sched :
  (∀ e s, P s → P (after (iteration sched e s))) →
  ∀ epochs s, P s →
  ∀ (i : nat) (rec : Rec), log (loop sched epochs s) !! i = Some rec →
    P (before rec)
    ∧ rec = iteration sched (ep rec) (before rec)
    ∧ epochs !! i = Some (ep rec).
Proof.
  intros Hstep epochs. induction epochs as [|e epochs IH]; intros s Hs i rec.
  { simpl. by destruct i. }
  simpl. pose proof (Hstep e s Hs) as Hs'.
  destruct (result (iteration sched e s)) as [x|[|]] eqn:Hres.
  3: destruct i as [|i]; [|apply (IH _ Hs')].
  1,2: destruct i as [|i]; [|by destruct i].
  all: simpl; intros [= <-];
    by rewrite run_epoch_ep, run_epoch_before.
Qed.

Lemma epoch_loop_lookup sched epochs s (i : nat) (rec : Rec) :
  log (loop sched epochs s) !! i = Some rec →
  rec = iteration sched (ep rec) (before rec) ∧ epochs !! i = Some (ep rec).
Proof.
  intros H.
  by apply (epoch_loop_invariant (λ _, True) sched) in H as (_ & ? & ?).
Qed.

(** The first iteration starts from the initial store, the next one from
    the store the previous one left. *)
Lemma epoch_loop_first sched epochs s (rec : Rec) :
  log (loop sched epochs s) !! 0%nat = Some rec → before rec = s.
Proof.
  destruct epochs as [|e epochs]; simpl; [done|].
  destruct (result (iteration sched e s)) as [x|[|]];
    simpl; intros [= <-]; apply run_epoch_before.
Qed.

Lemma epoch_loop_chain sched epochs s (i : nat) (rec rec' : Rec) :
  log (loop sched epochs s) !! i = Some rec →
  log (loop sched epochs s) !! S i = Some rec' →
  before rec' = after rec ∧ result rec = inr false.
Proof.
  revert s i. induction epochs as [|e epochs IH]; intros s i; simpl; [done|].
  destruct (result (iteration sched e s)) as [x|[|]] eqn:Hres; [done..|].
  destruct i as [|i]; simpl; [|apply IH].
  intros [= <-] H. by apply epoch_loop_first in H.
Qed.

(** An iteration that breaks or raises is the last one, and decides the
    outcome. *)
Lemma epoch_loop_last sched epochs s (i : nat) (rec : Rec) :
  log (loop sched epochs s) !! i = Some rec →
  result rec ≠ inr false →
  log (loop sched epochs s) !! S i = None
  ∧ outcome (loop sched epochs s) =
      match result rec with
      | inl x => Raised x
      | inr _ => EarlyStopped (ep rec)
      end.
Proof.
  revert s i. induction epochs as [|e epochs IH]; intros s i; simpl; [done|].
  destruct (result (iteration sched e s)) as [x|[|]] eqn:Hres.
  3: { destruct i as [|i]; simpl; [|apply IH]. intros [= <-]. by rewrite Hres. }
  all: destruct i as [|i]; simpl; [|by destruct i].
  all: intros [= <-] _; by rewrite Hres, ?run_epoch_ep.
Qed.

Lemma epoch_loop_early sched epochs s (e : Z) :
  outcome (loop sched epochs s) = EarlyStopped e →
  ∃ (i : nat) (rec : Rec),
    log (loop sched epochs s) !! i = Some rec
    ∧ ep rec = e ∧ result rec = inr true.
Proof.
  revert s. induction epochs as [|e' epochs IH]; intros s; simpl; [done|].
  destruct (result (iteration sched e' s)) as [x|[|]] eqn:Hres; simpl.
  - done.
  - intros [= <-]. exists 0%nat, (iteration sched e' s).
    by rewrite run_epoch_ep.
  - intros H. destruct (IH _ H) as (i & rec & ? & ? & ?).
    by exists (S i), rec.
Qed.

(** The assertion of line 108: a scheduler was built for the plateau
    policy only if there is a validation loader. *)
Lemma asserted_validation sched :
  make_scheduler W config data_loaders = inr sched →
  is_plateau config = true → is_Some (data_loaders !! "validation").
Proof.
  unfold make_scheduler, is_plateau, in_phases, phases, dict_contains.
  intros H Hp. rewrite Hp in H.
  destruct (data_loaders !! "validation"); [by eexists | done].
Qed.

(** A logged record of [main]: the scheduler was built, the record is an
    iteration of the body, and its epoch is its index past [start_epoch]. *)
Lemma main_lookup h (i : nat) (rec : Rec) :
  log (main W config data_loaders h) !! i = Some rec →
  ∃ sched,
    make_scheduler W config data_loaders = inr sched
    ∧ main W config data_loaders h =
        loop sched (Py.range (start_epoch config) (num_epochs config + 1))
          (init_store h)
    ∧ rec = iteration sched (ep rec) (before rec)
    ∧ ep rec = start_epoch config + Z.of_nat i
    ∧ ep rec ≤ num_epochs config.
Proof.
  unfold main.
  destruct (make_scheduler W config data_loaders) as [x|sched];
    [by destruct i|].
  intros H. exists sched. apply epoch_loop_lookup in H as [Hrec Hi].
  unfold Py.range in Hi. apply lookup_seqZ in Hi as [Hep ?].
  do 3 (split; [done|]). lia.
Qed.

End LoopFacts.

(** ** One epoch *)

Section EpochFacts.

Context {Loader Heap ModelDict OptimDict : Type}.
Variable W : World Loader Heap ModelDict OptimDict.
Variable config : Config.
Variable data_loaders : gmap string Loader.

Ltac unfold_body :=
  cbv [run_epoch epoch_body for_each run_phase update_learning_rate save_best
       save_periodic early_stopping do_save_checkpoint when call_ call bind
       ret raise gets modify read_var lift dict_get in_phases phases
       dict_contains Py.mod_ set_heap set_validation append_history
       set_best_val_acc heap val_loss val_acc val_acc_history best_val_acc
       existsb].

(** The body computes the closed form. *)
Lemma run_epoch_summary sched e s train_loader :
  data_loaders !! "train" = Some train_loader →
  (is_plateau config = true → is_Some (data_loaders !! "validation")) →
  run_epoch W config data_loaders sched e s =
  {| ep := e; before := s;
     events := epoch_events W config data_loaders sched e s train_loader;
     after := store_after W config data_loaders sched e s train_loader;
     result := epoch_result W config data_loaders sched e s train_loader |}.
Proof.
  intros has_train asserted.
  unfold epoch_events, epoch_result, store_after, stop_test,
    heap_after_periodic, periodic_events, periodic_save, periodic_due,
    heap_after_best, best_events, best_save, improved, heap_stepped,
    step_arg, heap_after_phases, validation_events, validated, trained.
  unfold is_plateau in *.
  destruct s as [h vl va hist best].
  destruct (data_loaders !! "validation") as [dl_v|] eqn:Hv;
    unfold_body; rewrite ?has_train, ?Hv; simpl.
  - destruct (train_epoch W train_loader e h) as [r1 h1]; simpl.
    destruct (validation_epoch W dl_v e h1) as [r2 h2]; simpl.
    destruct (String.eqb (lr_scheduler config) "plateau"); simpl.
    all: destruct (Py.float_gt (result_acc r2) best); simpl.
    all: destruct (checkpoint_frequency config =? 0); simpl; [reflexivity|].
    all: destruct (e `mod` checkpoint_frequency config =? 0); simpl.
    all: destruct (early_stopping_patience config <? e); reflexivity.
  - destruct (train_epoch W train_loader e h) as [r1 h1]; simpl.
    destruct (String.eqb (lr_scheduler config) "plateau"); simpl.
    { destruct asserted as [? [=]]; reflexivity. }
    destruct (checkpoint_frequency config =? 0); simpl; [reflexivity|].
    destruct (e `mod` checkpoint_frequency config =? 0); simpl.
    all: destruct (early_stopping_patience config <? e); reflexivity.
Qed.

(** Without a training loader the first phase raises [KeyError] before
    any call is made. *)
Lemma run_epoch_no_train sched e s :
  data_loaders !! "train" = None →
  run_epoch W config data_loaders sched e s =
  {| ep := e; before := s; events := []; after := s;
     result := inl (Py.KeyError "train") |}.
Proof.
  intros no_train. unfold_body.
  destruct (data_loaders !! "validation"); simpl; by rewrite no_train.
Qed.

(** A logged record of [main] in closed form. *)
Lemma main_record h (i : nat) rec train_loader :
  data_loaders !! "train" = Some train_loader →
  log (main W config data_loaders h) !! i = Some rec →
  ∃ sched,
    make_scheduler W config data_loaders = inr sched
    ∧ ep rec = start_epoch config + Z.of_nat i
    ∧ events rec =
        epoch_events W config data_loaders sched (ep rec) (before rec)
          train_loader
    ∧ after rec =
        store_after W config data_loaders sched (ep rec) (before rec)
          train_loader
    ∧ result rec =
        epoch_result W config data_loaders sched (ep rec) (before rec)
          train_loader.
Proof.
  intros has_train Hlog.
  apply main_lookup in Hlog as (sched & Hsched & _ & Hrec & Hep & _).
  exists sched. do 2 (split; [done|]).
  rewrite (run_epoch_summary sched _ _ train_loader has_train
             (asserted_validation W config data_loaders sched Hsched))
    in Hrec.
  pose proof (f_equal events Hrec) as Hev.
  pose proof (f_equal after Hrec) as Haf.
  pose proof (f_equal result Hrec) as Hres.
  done.
Qed.

End EpochFacts.

(** ** The claims *)

Section Claims.

Context {Loader Heap ModelDict OptimDict : Type}.
Variable W : World Loader Heap ModelDict OptimDict.
Variable config : Config.
Variable data_loaders : gmap string Loader.

Abbreviation Rec := (EpochRecord Loader Heap ModelDict OptimDict).
Abbreviation the_run := (main W config data_loaders).

Lemma main_first h (rec : Rec) :
  log (the_run h) !! 0%nat = Some rec → before rec = init_store h.
Proof.
  unfold main. destruct (make_scheduler _ _ _); [done|].
  apply epoch_loop_first.
Qed.

Lemma main_chain h (i : nat) (rec rec' : Rec) :
  log (the_run h) !! i = Some rec → log (the_run h) !! S i = Some rec' →
  before rec' = after rec ∧ result rec = inr false.
Proof.
  unfold main. destruct (make_scheduler _ _ _); [by destruct i|].
  apply epoch_loop_chain.
Qed.

Lemma epoch_loop_prefix sched epochs s :
  ep <$> log (epoch_loop W config data_loaders sched epochs s)
    `prefix_of` epochs.
Proof.
  revert s. induction epochs as [|e epochs IH]; intros s; simpl; [done|].
  destruct (result (run_epoch _ _ _ _ e s)) as [x|[|]]; simpl;
    rewrite run_epoch_ep.
  1,2: by exists epochs.
  by apply prefix_cons.
Qed.

(** C7. The epochs the loop visits are an initial segment of
    [range(start_epoch, num_epochs + 1)]: the first is [start_epoch], each
    next one is the previous plus one, and none exceeds [num_epochs]. *)
Theorem epoch_counter_monotone h :
  let epochs := ep <$> log (the_run h) in
  epochs `prefix_of`
    Py.range (start_epoch config) (num_epochs config + 1)
  ∧ (∀ e, epochs !! 0%nat = Some e → e = start_epoch config)
  ∧ (∀ (i : nat) e e',
       epochs !! i = Some e → epochs !! S i = Some e' → e' = e + 1)
  ∧ (∀ e, e ∈ epochs → start_epoch config ≤ e ≤ num_epochs config).
Proof.
  intros epochs.
  assert (Hat : ∀ (i : nat) e, epochs !! i = Some e →
            e = start_epoch config + Z.of_nat i ∧ e ≤ num_epochs config).
  { intros i e. unfold epochs. rewrite list_lookup_fmap.
    destruct (log (the_run h) !! i) as [rec|] eqn:Hi; [|done].
    intros [= <-]. apply main_lookup in Hi as (_ & _ & _ & _ & ? & ?).
    done. }
  split; [|split; [|split]].
  - unfold epochs, main. destruct (make_scheduler _ _ _).
    + apply prefix_nil.
    + apply epoch_loop_prefix.
  - intros e He. apply Hat in He. lia.
  - intros i e e' He He'. apply Hat in He, He'. lia.
  - intros e [i He]%list_elem_of_lookup. apply Hat in He. lia.
Qed.

(** C4. With a training loader, every iteration starts with the call of
    [train_epoch]; the call of [validation_epoch] follows it, on the heap
    training left, exactly when [data_loaders] has a ['validation'] key;
    no phase function is called after that. *)
Theorem phase_order h (i : nat) (rec : Rec) train_loader :
  data_loaders !! "train" = Some train_loader →
  log (the_run h) !! i = Some rec →
  let t := train_epoch W train_loader (ep rec) (heap (before rec)) in
  phases data_loaders =
    "train" :: match data_loaders !! "validation" with
               | Some _ => ["validation"]
               | None => []
               end
  ∧ ∃ rest,
      events rec =
        EvTrainEpoch (ep rec) train_loader t.1
          :: match data_loaders !! "validation" with
             | Some dl =>
                 [EvValidationEpoch (ep rec) dl
                    (validation_epoch W dl (ep rec) t.2).1]
             | None => []
             end
          ++ rest
      ∧ Forall (λ ev, is_phase_event ev = false) rest.
Proof.
  intros Htrain Hlog t.
  split.
  { unfold phases, dict_contains. by destruct (data_loaders !! "validation"). }
  apply (main_record _ _ _ _ _ _ _ Htrain) in Hlog
    as (sched & _ & _ & -> & _ & _).
  exists (EvSchedulerStep sched
            (step_arg W config data_loaders (ep rec) (before rec)
               train_loader)
          :: best_events W config data_loaders sched (ep rec) (before rec)
               train_loader
          ++ periodic_events W config data_loaders sched (ep rec)
               (before rec) train_loader).
  split; [reflexivity|].
  unfold best_events, periodic_events.
  destruct (improved _ _ _ _ _), (periodic_due _ _); repeat constructor.
Qed.

(** C3. With a training loader, every iteration calls [scheduler.step]
    exactly once, after the calls of the phase functions and before
    anything else: with the loss the validation phase of this iteration
    returned when [lr_scheduler] is ['plateau'], with the epoch index
    otherwise. *)
Theorem scheduler_stepped_once h (i : nat) (rec : Rec) train_loader :
  data_loaders !! "train" = Some train_loader →
  log (the_run h) !! i = Some rec →
  ∃ sched pre arg rest,
    make_scheduler W config data_loaders = inr sched
    ∧ events rec = pre ++ EvSchedulerStep sched arg :: rest
    ∧ Forall (λ ev, is_phase_event ev = true) pre
    ∧ Forall (λ ev, is_phase_event ev = false ∧ is_step_event ev = false)
        rest
    ∧ count is_step_event (events rec) = 1%nat
    ∧ if is_plateau config then
        ∃ dl r, last pre = Some (EvValidationEpoch (ep rec) dl r)
                ∧ arg = ArgLoss (result_loss r)
      else arg = ArgEpoch (ep rec).
Proof.
  intros Htrain Hlog.
  apply (main_record _ _ _ _ _ _ _ Htrain) in Hlog
    as (sched & Hsched & _ & -> & _ & _).
  pose proof (asserted_validation _ _ _ _ Hsched) as Hassert.
  set (e := ep rec). set (s := before rec).
  exists sched,
    (EvTrainEpoch e train_loader (trained W e s train_loader).1
       :: validation_events W data_loaders e s train_loader),
    (step_arg W config data_loaders e s train_loader),
    (best_events W config data_loaders sched e s train_loader
       ++ periodic_events W config data_loaders sched e s train_loader).
  split; [done|]. split; [reflexivity|].
  unfold epoch_events, count, best_events, periodic_events, step_arg,
    validation_events, validated.
  destruct (is_plateau config) eqn:Hp.
  - destruct Hassert as [dl Hdl]; [done|]. rewrite Hdl.
    destruct (improved _ _ _ _ _), (periodic_due _ _); simpl;
      repeat split; repeat constructor; eauto.
  - destruct (data_loaders !! "validation"),
      (improved _ _ _ _ _), (periodic_due _ _); simpl;
      repeat split; repeat constructor; eauto.
Qed.

Lemma best_save_not_periodic sched e s train_loader :
  is_periodic_save config
    (best_save W config data_loaders sched e s train_loader) = false.
Proof.
  unfold best_save. simpl. apply String.eqb_neq. intros H.
  by apply (periodic_path_not_best config e).
Qed.

Lemma periodic_save_not_best sched e s train_loader :
  is_best_save config
    (periodic_save W config data_loaders sched e s train_loader) = false.
Proof.
  unfold periodic_save. simpl. apply String.eqb_neq.
  apply periodic_path_not_best.
Qed.

(** C5. With a training loader and a non-zero [checkpoint_frequency], an
    iteration writes the periodic checkpoint exactly when
    [epoch % checkpoint_frequency == 0]; it is then the last but one call
    of the iteration, and [cleanup_checkpoint_dir] is the last.  No other
    iteration writes a periodic checkpoint or cleans the directory. *)
Theorem periodic_checkpoint_schedule h (i : nat) (rec : Rec) train_loader :
  data_loaders !! "train" = Some train_loader →
  checkpoint_frequency config ≠ 0 →
  log (the_run h) !! i = Some rec →
  let quiet (ev : Event Loader ModelDict OptimDict) :=
    is_periodic_save config ev = false ∧ is_cleanup_event ev = false in
  if ep rec `mod` checkpoint_frequency config =? 0 then
    ∃ pre model_state optimizer_state,
      events rec =
        pre ++ [EvSaveCheckpoint (periodic_checkpoint_path config (ep rec))
                  (ep rec) model_state optimizer_state;
                EvCleanupCheckpointDir]
      ∧ Forall quiet pre
  else Forall quiet (events rec).
Proof.
  intros Htrain Hfreq Hlog quiet.
  apply (main_record _ _ _ _ _ _ _ Htrain) in Hlog
    as (sched & _ & _ & -> & _ & _).
  set (e := ep rec). set (s := before rec).
  assert (Hpre : Forall quiet
            (EvTrainEpoch e train_loader (trained W e s train_loader).1
               :: validation_events W data_loaders e s train_loader
               ++ [EvSchedulerStep sched
                     (step_arg W config data_loaders e s train_loader)]
               ++ best_events W config data_loaders sched e s train_loader)).
  { unfold validation_events, best_events.
    destruct (data_loaders !! "validation"), (improved _ _ _ _ _); simpl;
      repeat constructor; apply best_save_not_periodic. }
  unfold epoch_events, periodic_events, periodic_due.
  fold e s. apply Z.eqb_neq in Hfreq. rewrite Hfreq. simpl.
  destruct (e `mod` checkpoint_frequency config =? 0).
  - eexists _, _, _. split; [|exact Hpre].
    unfold periodic_save. simpl. by rewrite <- app_assoc.
  - by rewrite !app_nil_r.
Qed.

(** The saves of one iteration: the best one on the heap the scheduler
    step left, the periodic one on the heap after that. *)
Lemma saves_of_epoch sched e s train_loader path e' model_state
    optimizer_state :
  EvSaveCheckpoint path e' model_state optimizer_state
    ∈ epoch_events W config data_loaders sched e s train_loader →
  EvSaveCheckpoint path e' model_state optimizer_state
    = best_save W config data_loaders sched e s train_loader
  ∨ (EvSaveCheckpoint path e' model_state optimizer_state
       = periodic_save W config data_loaders sched e s train_loader
     ∧ periodic_due config e = true).
Proof.
  unfold epoch_events, validation_events, best_events, periodic_events.
  destruct (data_loaders !! "validation"), (improved _ _ _ _ _),
    (periodic_due _ _); simpl; intros H;
    repeat (apply elem_of_cons in H as [H|H]; [try done; eauto|]);
    by apply elem_of_nil in H.
Qed.

(** C6. With a training loader, every [save_checkpoint] call of an
    iteration stores the epoch of the iteration, and its model and
    optimizer dictionaries are the two [state_dict]s of one and the same
    heap: the heap after the scheduler step for [save_best.pth], the heap
    after that write for the periodic file. *)
Theorem checkpoint_saves_both_states h (i : nat) (rec : Rec) train_loader
    path e model_state optimizer_state :
  data_loaders !! "train" = Some train_loader →
  log (the_run h) !! i = Some rec →
  EvSaveCheckpoint path e model_state optimizer_state ∈ events rec →
  e = ep rec
  ∧ ∃ sched at_call,
      make_scheduler W config data_loaders = inr sched
      ∧ model_state = model_state_dict W at_call
      ∧ optimizer_state = optimizer_state_dict W at_call
      ∧ (path = best_checkpoint_path config
         ∧ at_call =
             heap_stepped W config data_loaders sched (ep rec) (before rec)
               train_loader
         ∨ path = periodic_checkpoint_path config (ep rec)
           ∧ at_call =
               heap_after_best W config data_loaders sched (ep rec)
                 (before rec) train_loader).
Proof.
  intros Htrain Hlog Hin.
  apply (main_record _ _ _ _ _ _ _ Htrain) in Hlog
    as (sched & Hsched & _ & Hev & _ & _).
  rewrite Hev in Hin. apply saves_of_epoch in Hin as [[=]|[[=] _]]; subst.
  - split; [done|]. eexists sched, _. eauto 10.
  - split; [done|]. eexists sched, _. eauto 10.
Qed.

(** C10. With a training loader, every checkpoint an iteration writes
    stores the epoch [e] of the iteration, and its file is either
    [save_best.pth], whose name has no number, or the file
    [save_<n>.pth] in which [<n>] is [e + 1] printed with ['{:03d}'], a
    numeral that reads back as [e + 1]: one more than the stored epoch.
    The second kind is written only when the periodic checkpoint is due. *)
Theorem checkpoint_file_names h (i : nat) (rec : Rec) train_loader
    path e model_state optimizer_state :
  data_loaders !! "train" = Some train_loader →
  log (the_run h) !! i = Some rec →
  EvSaveCheckpoint path e model_state optimizer_state ∈ events rec →
  e = ep rec
  ∧ (path = Py.os_path_join (checkpoint_dir config) "save_best.pth"
     ∨ ∃ number,
         path = Py.os_path_join (checkpoint_dir config)
                  ("save_" +:+ number +:+ ".pth")
         ∧ number = Py.format_03d (e + 1)
         ∧ read_number number = Some (e + 1)
         ∧ path ≠ Py.os_path_join (checkpoint_dir config) "save_best.pth"
         ∧ periodic_due config e = true).
Proof.
  intros Htrain Hlog Hin.
  apply (main_record _ _ _ _ _ _ _ Htrain) in Hlog
    as (sched & Hsched & _ & Hev & _ & _).
  rewrite Hev in Hin. apply saves_of_epoch in Hin as [[=]|[[=] Hdue]]; subst.
  - split; [done|]. by left.
  - split; [done|]. right. exists (Py.format_03d (ep rec + 1)).
    split; [done|]. split; [done|]. split; [apply read_format_03d|].
    split; [apply periodic_path_not_best | done].
Qed.

Lemma main_last h (i : nat) (rec : Rec) :
  log (the_run h) !! i = Some rec →
  result rec ≠ inr false →
  log (the_run h) !! S i = None
  ∧ outcome (the_run h) =
      match result rec with
      | inl x => Raised x
      | inr _ => EarlyStopped (ep rec)
      end.
Proof.
  unfold main. destruct (make_scheduler _ _ _); [by destruct i|].
  apply epoch_loop_last.
Qed.

Lemma main_early h (i : nat) (rec : Rec) :
  log (the_run h) !! i = Some rec →
  outcome (the_run h) = EarlyStopped (ep rec) →
  result rec = inr true.
Proof.
  intros Hlog Hout.
  pose proof Hlog as (_ & _ & _ & _ & Hep & _)%main_lookup.
  assert (∃ (j : nat) (rec' : Rec), log (the_run h) !! j = Some rec'
            ∧ ep rec' = ep rec ∧ result rec' = inr true)
    as (j & rec' & Hlog' & Hep' & Hres).
  { revert Hout. unfold main. destruct (make_scheduler _ _ _); [done|].
    apply epoch_loop_early. }
  pose proof Hlog' as (_ & _ & _ & _ & Hj & _)%main_lookup.
  assert (j = i) as -> by lia. by simplify_eq.
Qed.

(** What the validation phase of an iteration leaves in the store. *)
Lemma validation_recorded sched e s train_loader validation_loader :
  data_loaders !! "validation" = Some validation_loader →
  let r := (validation_epoch W validation_loader e
              (train_epoch W train_loader e (heap s)).2).1 in
  EvValidationEpoch e validation_loader r
    ∈ epoch_events W config data_loaders sched e s train_loader
  ∧ val_acc (store_after W config data_loaders sched e s train_loader)
      = Some (result_acc r)
  ∧ val_acc_history
      (store_after W config data_loaders sched e s train_loader)
      = val_acc_history s ++ [result_acc r]
  ∧ improved W data_loaders e s train_loader
      = Py.float_gt (result_acc r) (best_val_acc s)
  ∧ best_val_acc
      (store_after W config data_loaders sched e s train_loader)
      = if Py.float_gt (result_acc r) (best_val_acc s) then result_acc r
        else best_val_acc s.
Proof.
  intros Hv r.
  unfold epoch_events, store_after, improved, validation_events, validated,
    trained. rewrite Hv. simpl.
  split; [|done]. apply elem_of_cons. right. apply elem_of_cons. by left.
Qed.

(** C2. With a training and a validation loader, an iteration writes
    [save_best.pth] if and only if the validation accuracy of this
    iteration is strictly greater than [best_val_acc] as the iteration
    found it; [best_val_acc] then becomes that accuracy and is left as it
    was otherwise.  The first iteration finds 0.0, every later one what
    the previous iteration left. *)
Theorem best_checkpoint_rule h (i : nat) (rec : Rec) train_loader
    validation_loader :
  data_loaders !! "train" = Some train_loader →
  data_loaders !! "validation" = Some validation_loader →
  log (the_run h) !! i = Some rec →
  ∃ r,
    EvValidationEpoch (ep rec) validation_loader r ∈ events rec
    ∧ val_acc (after rec) = Some (result_acc r)
    ∧ (existsb (is_best_save config) (events rec) = true
       ↔ Py.float_gt (result_acc r) (best_val_acc (before rec)) = true)
    ∧ best_val_acc (after rec) =
        (if Py.float_gt (result_acc r) (best_val_acc (before rec))
         then result_acc r else best_val_acc (before rec))
    ∧ (i = 0%nat → best_val_acc (before rec) = 0%float)
    ∧ (∀ rec', log (the_run h) !! S i = Some rec' →
         best_val_acc (before rec') = best_val_acc (after rec)).
Proof.
  intros Htrain Hval Hlog.
  pose proof Hlog as (sched & _ & _ & Hev & Haf & _)%(main_record _ _ _ _ _ _ _ Htrain).
  destruct (validation_recorded sched (ep rec) (before rec) train_loader _
              Hval) as (Hin & Hacc & _ & Himp & Hbest).
  eexists. rewrite Hev, Haf.
  split; [exact Hin|]. split; [exact Hacc|]. split; [|split; [exact Hbest|]].
  - rewrite <- Himp.
    pose proof (periodic_save_not_best sched (ep rec) (before rec)
                  train_loader) as Hper.
    unfold epoch_events, validation_events, best_events, periodic_events.
    rewrite Hval.
    destruct (improved _ _ _ _ _), (periodic_due _ _); simpl;
      rewrite ?String.eqb_refl; simpl in Hper; rewrite ?Hper; done.
  - split.
    + intros ->. by rewrite (main_first _ _ Hlog).
    + intros rec' Hlog'.
      destruct (main_chain _ _ _ _ Hlog Hlog') as [-> _]. by rewrite Haf.
Qed.

(** C1 (amended). With a training and a validation loader, a non-zero
    [checkpoint_frequency] and a positive [early_stopping_patience], an
    iteration breaks the loop exactly when its epoch index exceeds the
    patience and each of the last [early_stopping_patience] recorded
    validation accuracies (all of them while fewer are recorded), the one
    of this iteration included, is strictly below [best_val_acc]. *)
Theorem early_stopping_rule h (i : nat) (rec : Rec) train_loader
    validation_loader :
  data_loaders !! "train" = Some train_loader →
  data_loaders !! "validation" = Some validation_loader →
  checkpoint_frequency config ≠ 0 →
  0 < early_stopping_patience config →
  log (the_run h) !! i = Some rec →
  ∃ stop r,
    result rec = inr stop
    ∧ (stop = true ↔ outcome (the_run h) = EarlyStopped (ep rec))
    ∧ EvValidationEpoch (ep rec) validation_loader r ∈ events rec
    ∧ val_acc_history (after rec)
        = val_acc_history (before rec) ++ [result_acc r]
    ∧ (stop = true ↔
       early_stopping_patience config < ep rec
       ∧ Forall (λ acc, Py.float_lt acc (best_val_acc (after rec)) = true)
           (last_n (Z.to_nat (early_stopping_patience config))
              (val_acc_history (after rec)))).
Proof.
  intros Htrain Hval Hfreq Hpatience Hlog.
  pose proof Hlog as (sched & _ & _ & Hev & Haf & Hres)%(main_record _ _ _ _ _ _ _ Htrain).
  destruct (validation_recorded sched (ep rec) (before rec) train_loader _
              Hval) as (Hin & _ & Hhist & _ & _).
  unfold epoch_result in Hres.
  apply Z.eqb_neq in Hfreq. rewrite Hfreq, <- Haf in Hres.
  eexists _, _. split; [exact Hres|].
  rewrite Hev. split; [|split; [exact Hin|]].
  - split.
    + intros Hstop. rewrite Hstop in Hres.
      destruct (main_last _ _ _ Hlog) as [_ ->]; by rewrite Hres.
    + intros Hout. apply (main_early _ _ _ Hlog) in Hout.
      rewrite Hres in Hout. by injection Hout.
  - split; [by rewrite Haf|].
    unfold stop_test.
    rewrite andb_true_iff, Z.ltb_lt, all_Forall, slice_from_last_n by done.
    reflexivity.
Qed.

Lemma int_each_error l e : int_each W l = inl e → e = Py.ValueError.
Proof.
  induction l as [|x l IH]; simpl; [done|].
  destruct (py_int W x); [|by intros [= <-]].
  destruct (int_each W l); [|done]. intros [= <-]. by apply IH.
Qed.

(** C8. The construction of the scheduler raises [AssertionError]
    exactly when [lr_scheduler] is ['plateau'] and [data_loaders] has no
    ['validation'] key (so never for another policy); when the
    construction raises, the loop is not entered; and no iteration of any
    run raises [NameError]: [scheduler.step(val_loss)] is reached only
    with [val_loss] bound. *)
Theorem plateau_asserts_validation h :
  (make_scheduler W config data_loaders = inl Py.AssertionError
   ↔ is_plateau config = true ∧ data_loaders !! "validation" = None)
  ∧ (∀ e, make_scheduler W config data_loaders = inl e →
       log (the_run h) = [] ∧ outcome (the_run h) = Raised e)
  ∧ (∀ (i : nat) (rec : Rec), log (the_run h) !! i = Some rec →
       (is_plateau config = true → is_Some (data_loaders !! "validation"))
       ∧ ∀ name, result rec ≠ inl (Py.NameError name)).
Proof.
  split; [|split].
  - unfold make_scheduler, is_plateau, in_phases, phases, dict_contains.
    destruct (String.eqb (lr_scheduler config) "plateau").
    + destruct (data_loaders !! "validation"); simpl; [|done].
      split; [done | by intros [_ [=]]].
    + split; [|by intros [[=] _]].
      destruct (int_each W _) as [e|] eqn:He; [|done].
      apply int_each_error in He as ->. done.
  - intros e He. unfold main. by rewrite He.
  - intros i rec Hlog.
    pose proof Hlog as (sched & Hsched & _ & Hrec & _)%main_lookup.
    split; [by apply (asserted_validation W config data_loaders sched)|].
    intros name Hname.
    destruct (data_loaders !! "train") as [train_loader|] eqn:Htrain.
    + apply (main_record _ _ _ _ _ _ _ Htrain) in Hlog
        as (sched' & _ & _ & _ & _ & Hres).
      rewrite Hres in Hname. unfold epoch_result in Hname.
      by destruct (checkpoint_frequency config =? 0).
    + rewrite (run_epoch_no_train _ _ _ _ _ _ Htrain) in Hrec.
      by rewrite Hrec in Hname.
Qed.

(** Without a validation loader an iteration leaves the history as it
    found it, and on an empty history its result is the gate
    [epoch > early_stopping_patience] alone. *)
Lemma train_only_epoch sched e s train_loader :
  data_loaders !! "train" = Some train_loader →
  data_loaders !! "validation" = None →
  is_plateau config = false →
  checkpoint_frequency config ≠ 0 →
  val_acc_history s = [] →
  val_acc_history (after (run_epoch W config data_loaders sched e s)) = []
  ∧ result (run_epoch W config data_loaders sched e s)
      = inr (early_stopping_patience config <? e).
Proof.
  intros Htrain Hval Hp Hfreq Hhist.
  rewrite (run_epoch_summary _ _ _ sched e s train_loader Htrain)
    by (by rewrite Hp).
  simpl. unfold epoch_result, stop_test, store_after, validated.
  apply Z.eqb_neq in Hfreq. rewrite Hfreq, Hval. simpl.
  rewrite Hhist, slice_from_nil. simpl. by rewrite andb_true_r.
Qed.

(** The loop without a validation loader, on the epochs
    [first, first + 1, ...]: it breaks at the first epoch above the
    patience. *)
Lemma train_only_loop sched train_loader (n : nat) :
  data_loaders !! "train" = Some train_loader →
  data_loaders !! "validation" = None →
  is_plateau config = false →
  checkpoint_frequency config ≠ 0 →
  ∀ first s, val_acc_history s = [] →
  let r := epoch_loop W config data_loaders sched
             (seqZ first (Z.of_nat n)) s in
  let stop := Z.max first (early_stopping_patience config + 1) in
  if stop <? first + Z.of_nat n then
    outcome r = EarlyStopped stop
    ∧ ep <$> log r = seqZ first (stop + 1 - first)
  else outcome r = Finished ∧ ep <$> log r = seqZ first (Z.of_nat n).
Proof.
  intros Htrain Hval Hp Hfreq.
  induction n as [|n IH]; intros first s Hhist r stop; subst r stop.
  { rewrite seqZ_nil by lia. simpl. case_ltb; [lia | done]. }
  rewrite seqZ_cons by lia. simpl.
  destruct (train_only_epoch sched first s train_loader Htrain Hval Hp Hfreq
              Hhist) as [Hhist' ->].
  replace (Z.pred (Z.of_nat (S n))) with (Z.of_nat n) by lia.
  destruct (Z.ltb_spec (early_stopping_patience config) first) as [Hgt|Hle];
    simpl; rewrite run_epoch_ep.
  - rewrite Z.max_l by lia. case_ltb; [|lia].
    split; [done|]. by replace (first + 1 - first) with 1 by lia.
  - specialize (IH (Z.succ first) _ Hhist'). simpl in IH.
    rewrite !Z.max_r in * by lia.
    replace (Z.succ first + Z.of_nat n) with (first + Z.of_nat (S n)) in IH
      by lia.
    destruct (_ <? _); destruct IH as [-> Hlog]; (split; [done|]).
    + rewrite (seqZ_cons first) by lia. f_equal.
      etransitivity; [exact Hlog|]. f_equal; lia.
    + f_equal. exact Hlog.
Qed.

(** C9. With a training loader, no validation loader, a scheduler built
    and a non-zero [checkpoint_frequency]: the history is empty after
    every iteration, so is the slice the early-stopping test looks at, and
    an iteration breaks the loop exactly when its epoch exceeds the
    patience.  The loop therefore runs the epochs from [start_epoch] up to
    the first one above the patience and stops there, or finishes the
    range when no epoch of it is above the patience. *)
Theorem train_only_stops_after_patience h sched train_loader :
  data_loaders !! "train" = Some train_loader →
  data_loaders !! "validation" = None →
  make_scheduler W config data_loaders = inr sched →
  checkpoint_frequency config ≠ 0 →
  let patience := early_stopping_patience config in
  let stop := Z.max (start_epoch config) (patience + 1) in
  (∀ (i : nat) (rec : Rec), log (the_run h) !! i = Some rec →
     val_acc_history (after rec) = []
     ∧ Py.slice_from (val_acc_history (after rec)) (- patience) = []
     ∧ result rec = inr (patience <? ep rec))
  ∧ if stop <=? num_epochs config then
      outcome (the_run h) = EarlyStopped stop
      ∧ ep <$> log (the_run h)
          = Py.range (start_epoch config) (stop + 1)
    else
      outcome (the_run h) = Finished
      ∧ ep <$> log (the_run h)
          = Py.range (start_epoch config) (num_epochs config + 1).
Proof.
  intros Htrain Hval Hsched Hfreq patience stop.
  assert (Hp : is_plateau config = false).
  { destruct (is_plateau config) eqn:Hp; [|done].
    destruct (asserted_validation _ _ _ _ Hsched Hp) as [? Hsome].
    by rewrite Hval in Hsome. }
  split.
  - intros i rec Hlog. unfold main in Hlog. rewrite Hsched in Hlog.
    apply (epoch_loop_invariant W config data_loaders
             (λ s, val_acc_history s = []) sched) in Hlog
      as (Hhist & Hrec & _).
    + destruct (train_only_epoch sched (ep rec) (before rec) train_loader
                  Htrain Hval Hp Hfreq Hhist) as [Hh Hr].
      rewrite <- Hrec in Hh, Hr. rewrite Hh, slice_from_nil. done.
    + intros e s Hs.
      by destruct (train_only_epoch sched e s train_loader Htrain Hval Hp
                     Hfreq Hs).
    + done.
  - unfold main, Py.range. rewrite Hsched.
    set (len := num_epochs config + 1 - start_epoch config).
    destruct (Z.leb_spec stop (num_epochs config)) as [Hstop|Hstop].
    + pose proof (train_only_loop sched train_loader (Z.to_nat len)
                    Htrain Hval Hp Hfreq (start_epoch config)
                    (init_store h) eq_refl) as Hloop.
      simpl in Hloop. rewrite Z2Nat.id in Hloop by lia.
      revert Hloop. case_ltb; [done | lia].
    + destruct (Z.le_gt_cases 0 len) as [Hlen|Hlen].
      * pose proof (train_only_loop sched train_loader (Z.to_nat len)
                      Htrain Hval Hp Hfreq (start_epoch config)
                      (init_store h) eq_refl) as Hloop.
        simpl in Hloop. rewrite Z2Nat.id in Hloop by lia.
        revert Hloop. case_ltb; [lia | done].
      * by rewrite seqZ_nil by lia.
Qed.

End Claims.

(** C1, as stated: false for a patience of 0.  With a constant
    validation accuracy epoch 1 exceeds the patience and the last zero
    accuracies are vacuously below the best, yet the loop goes on:
    [val_acc_history[-0:]] is the whole history, which holds the best
    accuracy itself. *)
Lemma early_stopping_patience_zero :
  ¬ stops_on_last_window (Demo.cfg "multistep" 0 3 1 0) Demo.run_patience_0.
Proof.
  intros Hclaim.
  destruct (Demo.run_patience_0.(log) !! 1%nat) as [rec|] eqn:Hrec;
    [|by vm_compute in Hrec].
  destruct (Hclaim 1%nat rec Hrec) as [_ Hstop].
  vm_compute in Hrec. injection Hrec as <-.
  assert (Hno : @inr Py.Exn bool false = inr true); [|done].
  apply Hstop. split; [done | constructor].
Qed.


(** ** The claims on concrete runs *)

Section Witnesses.

Import Demo.

Abbreviation milestones_cfg := (cfg "multistep" 0 5 2 2).
Abbreviation start_heap := ((0, 0)%nat : Heap).

(** The milestone run: best at epoch 1, stopped at epoch 3 after two
    epochs below it. *)
Example run_milestones_trace :
  ep <$> log run_milestones = [0; 1; 2; 3]
  ∧ outcome run_milestones = EarlyStopped 3
  ∧ events (record_at run_milestones 0) =
      [EvTrainEpoch 0 "train-set" (1, 0.5, 60)%float;
       EvValidationEpoch 0 "validation-set" (2, 0.5, 30)%float;
       EvSchedulerStep (MultiStepLR [30; 60] 0.125%float) (ArgEpoch 0);
       EvSaveCheckpoint "/tmp/checkpoints/save_best.pth" 0 1%nat 2%nat;
       EvSaveCheckpoint "/tmp/checkpoints/save_001.pth" 0 1%nat 2%nat;
       EvCleanupCheckpointDir]
  ∧ val_acc_history (final run_milestones)
      = [0.5; 0.75; 0.5; 0.5]%float
  ∧ best_val_acc (final run_milestones) = 0.75%float.
Proof. vm_compute. repeat split. Qed.

(** The plateau run without a validation loader fails the assertion
    before the first epoch. *)
Example plateau_without_validation :
  main (world peak_at_1) (cfg "plateau" 0 5 2 2) train_only start_heap
  = {| log := []; final := init_store start_heap;
       outcome := Raised Py.AssertionError |}.
Proof. vm_compute. reflexivity. Qed.

(** A checkpoint frequency of 0 raises in the first epoch, after the best
    checkpoint was written. *)
Example frequency_zero_raises :
  outcome (main (world flat) (cfg "multistep" 0 3 0 2) both_loaders
             start_heap)
  = Raised Py.ZeroDivisionError.
Proof. vm_compute. reflexivity. Qed.

(** With a patience of 2 and the best accuracy in epoch 0, the last two
    accuracies are below the best at the end of epoch 2, but the epoch
    index does not exceed the patience: the loop stops one epoch later,
    after three epochs below the best. *)
Example patience_window_gated :
  val_acc_history (after (record_at run_peak_0 2))
    = [0.75; 0.5; 0.5]%float
  ∧ best_val_acc (after (record_at run_peak_0 2)) = 0.75%float
  ∧ result (record_at run_peak_0 2) = inr false
  ∧ outcome run_peak_0 = EarlyStopped 3.
Proof. vm_compute. repeat split. Qed.

(** With a patience of 0 and a constant accuracy the loop runs the whole
    range. *)
Example run_patience_0_trace :
  ep <$> log run_patience_0 = [0; 1; 2; 3]
  ∧ outcome run_patience_0 = Finished.
Proof. vm_compute. repeat split. Qed.

(** Epoch 1 of the milestone run calls training, then validation. *)
Lemma phase_order_witness :
  both_loaders !! "train" = Some "train-set"
  ∧ log run_milestones !! 1%nat = Some (record_at run_milestones 1)
  ∧ ∃ rest,
      events (record_at run_milestones 1) =
        EvTrainEpoch 1 "train-set" (1, 0.5, 60)%float
          :: EvValidationEpoch 1 "validation-set" (2, 0.75, 30)%float
          :: rest.
Proof.
  assert (Htrain : both_loaders !! "train" = Some "train-set")
    by reflexivity.
  assert (Hlog : log run_milestones !! 1%nat
                 = Some (record_at run_milestones 1))
    by (vm_compute; reflexivity).
  split; [exact Htrain | split; [exact Hlog|]].
  destruct (phase_order (world peak_at_1) milestones_cfg both_loaders
              start_heap 1%nat _ "train-set" Htrain Hlog)
    as [_ [rest [Hev _]]].
  exists rest. vm_compute in Hev. vm_compute. exact Hev.
Defined.

(** Epoch 0 of the plateau run steps the scheduler exactly once. *)
Lemma scheduler_stepped_once_witness :
  both_loaders !! "train" = Some "train-set"
  ∧ log run_plateau !! 0%nat = Some (record_at run_plateau 0)
  ∧ count is_step_event (events (record_at run_plateau 0)) = 1%nat.
Proof.
  assert (Htrain : both_loaders !! "train" = Some "train-set")
    by reflexivity.
  assert (Hlog : log run_plateau !! 0%nat = Some (record_at run_plateau 0))
    by (vm_compute; reflexivity).
  split; [exact Htrain | split; [exact Hlog|]].
  destruct (scheduler_stepped_once (world peak_at_1) (cfg "plateau" 0 5 2 2)
              both_loaders start_heap 0%nat _ "train-set" Htrain Hlog)
    as (_ & _ & _ & _ & _ & _ & _ & _ & Hcount & _).
  exact Hcount.
Defined.

(** Epoch 2 of the milestone run, with a frequency of 2, ends with the
    write of [save_003.pth] and the cleanup. *)
Lemma periodic_checkpoint_schedule_witness :
  both_loaders !! "train" = Some "train-set"
  ∧ checkpoint_frequency milestones_cfg ≠ 0
  ∧ log run_milestones !! 2%nat = Some (record_at run_milestones 2)
  ∧ ∃ pre model_state optimizer_state,
      events (record_at run_milestones 2) =
        pre ++ [EvSaveCheckpoint "/tmp/checkpoints/save_003.pth" 2
                  model_state optimizer_state;
                EvCleanupCheckpointDir].
Proof.
  assert (Htrain : both_loaders !! "train" = Some "train-set")
    by reflexivity.
  assert (Hfreq : checkpoint_frequency milestones_cfg ≠ 0) by (simpl; lia).
  assert (Hlog : log run_milestones !! 2%nat
                 = Some (record_at run_milestones 2))
    by (vm_compute; reflexivity).
  split; [exact Htrain | split; [exact Hfreq | split; [exact Hlog|]]].
  pose proof (periodic_checkpoint_schedule (world peak_at_1) milestones_cfg
                both_loaders start_heap 2%nat _ "train-set" Htrain Hfreq
                Hlog) as Hdue.
  vm_compute in Hdue. destruct Hdue as (pre & m & o & Hev & _).
  exists pre, m, o. vm_compute. exact Hev.
Defined.

(** The best checkpoint of epoch 0 stores epoch 0 and the two state
    dictionaries of one heap. *)
Lemma checkpoint_saves_both_states_witness :
  both_loaders !! "train" = Some "train-set"
  ∧ log run_milestones !! 0%nat = Some (record_at run_milestones 0)
  ∧ EvSaveCheckpoint "/tmp/checkpoints/save_best.pth" 0 1%nat 2%nat
      ∈ events (record_at run_milestones 0)
  ∧ 0 = ep (record_at run_milestones 0)
  ∧ ∃ at_call : Heap,
      1%nat = model_state_dict (world peak_at_1) at_call
      ∧ 2%nat = optimizer_state_dict (world peak_at_1) at_call.
Proof.
  assert (Htrain : both_loaders !! "train" = Some "train-set")
    by reflexivity.
  assert (Hlog : log run_milestones !! 0%nat
                 = Some (record_at run_milestones 0))
    by (vm_compute; reflexivity).
  assert (Hin : EvSaveCheckpoint "/tmp/checkpoints/save_best.pth" 0 1%nat
                  2%nat ∈ events (record_at run_milestones 0))
    by (vm_compute; repeat constructor).
  split; [exact Htrain | split; [exact Hlog | split; [exact Hin|]]].
  destruct (checkpoint_saves_both_states (world peak_at_1) milestones_cfg
              both_loaders start_heap 0%nat _ "train-set" _ _ _ _ Htrain
              Hlog Hin)
    as (Hep & _ & at_call & _ & Hm & Ho & _).
  split; [exact Hep|]. exists at_call. split; [exact Hm | exact Ho].
Defined.

(** The periodic checkpoint of epoch 0 is [save_001.pth]. *)
Lemma checkpoint_file_names_witness :
  both_loaders !! "train" = Some "train-set"
  ∧ log run_milestones !! 0%nat = Some (record_at run_milestones 0)
  ∧ EvSaveCheckpoint "/tmp/checkpoints/save_001.pth" 0 1%nat 2%nat
      ∈ events (record_at run_milestones 0)
  ∧ 0 = ep (record_at run_milestones 0)
  ∧ ("/tmp/checkpoints/save_001.pth" =
       Py.os_path_join (checkpoint_dir milestones_cfg) "save_best.pth"
     ∨ ∃ number,
         "/tmp/checkpoints/save_001.pth" =
           Py.os_path_join (checkpoint_dir milestones_cfg)
             ("save_" +:+ number +:+ ".pth")
         ∧ number = Py.format_03d (0 + 1)
         ∧ read_number number = Some (0 + 1)
         ∧ "/tmp/checkpoints/save_001.pth" ≠
             Py.os_path_join (checkpoint_dir milestones_cfg) "save_best.pth"
         ∧ periodic_due milestones_cfg 0 = true).
Proof.
  assert (Htrain : both_loaders !! "train" = Some "train-set")
    by reflexivity.
  assert (Hlog : log run_milestones !! 0%nat
                 = Some (record_at run_milestones 0))
    by (vm_compute; reflexivity).
  assert (Hin : EvSaveCheckpoint "/tmp/checkpoints/save_001.pth" 0 1%nat
                  2%nat ∈ events (record_at run_milestones 0))
    by (vm_compute; repeat constructor).
  split; [exact Htrain | split; [exact Hlog | split; [exact Hin|]]].
  exact (checkpoint_file_names (world peak_at_1) milestones_cfg
           both_loaders start_heap 0%nat _ "train-set" _ _ _ _ Htrain Hlog
           Hin).
Defined.

(** Epoch 1 of the milestone run: the accuracy 0.75 beats the 0.5 of
    epoch 0. *)
Lemma best_checkpoint_rule_witness :
  both_loaders !! "train" = Some "train-set"
  ∧ both_loaders !! "validation" = Some "validation-set"
  ∧ log run_milestones !! 1%nat = Some (record_at run_milestones 1)
  ∧ ∃ r,
      val_acc (after (record_at run_milestones 1)) = Some (result_acc r)
      ∧ (existsb (is_best_save milestones_cfg)
           (events (record_at run_milestones 1)) = true
         ↔ Py.float_gt (result_acc r)
             (best_val_acc (before (record_at run_milestones 1))) = true).
Proof.
  assert (Htrain : both_loaders !! "train" = Some "train-set")
    by reflexivity.
  assert (Hval : both_loaders !! "validation" = Some "validation-set")
    by reflexivity.
  assert (Hlog : log run_milestones !! 1%nat
                 = Some (record_at run_milestones 1))
    by (vm_compute; reflexivity).
  split; [exact Htrain | split; [exact Hval | split; [exact Hlog|]]].
  destruct (best_checkpoint_rule (world peak_at_1) milestones_cfg
              both_loaders start_heap 1%nat _ "train-set" "validation-set"
              Htrain Hval Hlog)
    as (r & _ & Hacc & Hiff & _).
  exists r. split; [exact Hacc | exact Hiff].
Defined.

(** Epoch 3 of the milestone run, with a patience of 2. *)
Lemma early_stopping_rule_witness :
  both_loaders !! "train" = Some "train-set"
  ∧ both_loaders !! "validation" = Some "validation-set"
  ∧ checkpoint_frequency milestones_cfg ≠ 0
  ∧ 0 < early_stopping_patience milestones_cfg
  ∧ log run_milestones !! 3%nat = Some (record_at run_milestones 3)
  ∧ ∃ stop,
      result (record_at run_milestones 3) = inr stop
      ∧ (stop = true ↔
         outcome run_milestones
           = EarlyStopped (ep (record_at run_milestones 3))).
Proof.
  assert (Htrain : both_loaders !! "train" = Some "train-set")
    by reflexivity.
  assert (Hval : both_loaders !! "validation" = Some "validation-set")
    by reflexivity.
  assert (Hfreq : checkpoint_frequency milestones_cfg ≠ 0) by (simpl; lia).
  assert (Hpatience : 0 < early_stopping_patience milestones_cfg)
    by (simpl; lia).
  assert (Hlog : log run_milestones !! 3%nat
                 = Some (record_at run_milestones 3))
    by (vm_compute; reflexivity).
  split; [exact Htrain | split; [exact Hval | split; [exact Hfreq|]]].
  split; [exact Hpatience | split; [exact Hlog|]].
  destruct (early_stopping_rule (world peak_at_1) milestones_cfg
              both_loaders start_heap 3%nat _ "train-set" "validation-set"
              Htrain Hval Hfreq Hpatience Hlog)
    as (stop & _ & Hres & Hout & _).
  exists stop. split; [exact Hres | exact Hout].
Defined.

(** Without validation and with a patience of 2 the loop stops at
    epoch 3. *)
Lemma train_only_stops_after_patience_witness :
  train_only !! "train" = Some "train-set"
  ∧ train_only !! "validation" = None
  ∧ make_scheduler (world peak_at_1) milestones_cfg train_only
      = inr (MultiStepLR [30; 60] 0.125%float)
  ∧ checkpoint_frequency milestones_cfg ≠ 0
  ∧ outcome run_train_only = EarlyStopped 3
  ∧ ep <$> log run_train_only = [0; 1; 2; 3].
Proof.
  assert (Htrain : train_only !! "train" = Some "train-set") by reflexivity.
  assert (Hval : train_only !! "validation" = None) by reflexivity.
  assert (Hsched : make_scheduler (world peak_at_1) milestones_cfg train_only
                   = inr (MultiStepLR [30; 60] 0.125%float))
    by (vm_compute; reflexivity).
  assert (Hfreq : checkpoint_frequency milestones_cfg ≠ 0) by (simpl; lia).
  split; [exact Htrain | split; [exact Hval | split; [exact Hsched|]]].
  split; [exact Hfreq|].
  destruct (train_only_stops_after_patience (world peak_at_1) milestones_cfg
              train_only start_heap _ "train-set" Htrain Hval Hsched Hfreq)
    as [_ Hstop].
  exact Hstop.
Defined.

End Witnesses.

(** * Further properties of the script *)

(** ** The order on floats *)

Section FloatFacts.

Lemma SFcompare_refl (x : spec_float) :
  SFcompare x x = Some Eq ∨ SFcompare x x = None.
Proof.
  destruct x as [s|s| |s m e]; simpl; auto.
  - destruct s; auto.
  - left.
    assert (He : IntDef.Z.compare e e = Eq) by apply Z.compare_refl.
    assert (Hm : PosDef.Pos.compare_cont Eq m m = Eq)
      by apply Pos.compare_cont_refl.
    rewrite He, Hm. by destruct s.
Qed.

(** [x < x] is false, also for NaN. *)
Lemma float_lt_irrefl (x : float) : Py.float_lt x x = false.
Proof.
  unfold Py.float_lt. rewrite FloatAxioms.ltb_spec. unfold SFltb.
  by destruct (SFcompare_refl (Prim2SF x)) as [-> | ->].
Qed.

(** Only a number is above something: [y < x] makes [x] not NaN. *)
Lemma float_gt_not_nan (x y : float) :
  Py.float_gt x y = true → PrimFloat.is_nan x = false.
Proof.
  unfold Py.float_gt, PrimFloat.is_nan. rewrite FloatAxioms.ltb_spec, FloatAxioms.eqb_spec.
  unfold SFltb, SFeqb. intros H.
  destruct (SFcompare_refl (Prim2SF x)) as [-> | Hx]; [done|].
  destruct (Prim2SF y) as [?|?| |? ? ?], (Prim2SF x) as [?|?| |? ? ?];
    simpl in *; done.
Qed.

(** What is above something not below zero is not below zero. *)
Lemma float_gt_not_negative (x y : float) :
  Py.float_gt x y = true → Py.float_lt y 0 = false → Py.float_lt x 0 = false.
Proof.
  unfold Py.float_gt, Py.float_lt. rewrite !FloatAxioms.ltb_spec.
  replace (Prim2SF 0) with (S754_zero false) by (by vm_compute).
  unfold SFltb.
  destruct (Prim2SF y) as [[|]|[|]| |[|] ? ?],
    (Prim2SF x) as [[|]|[|]| |[|] ? ?]; simpl; try done.
  all: repeat case_match; done.
Qed.

(** NaN is neither below nor above anything. *)
Lemma float_nan_unordered (x y : float) :
  PrimFloat.is_nan x = true →
  Py.float_lt x y = false ∧ Py.float_gt x y = false.
Proof.
  unfold Py.float_gt, Py.float_lt, PrimFloat.is_nan.
  rewrite !FloatAxioms.ltb_spec, FloatAxioms.eqb_spec.
  unfold SFltb, SFeqb. intros Hnan.
  destruct (SFcompare_refl (Prim2SF x)) as [Hx|Hx];
    rewrite Hx in Hnan; [done|].
  destruct (Prim2SF x) as [[|]|[|]| |[|] m e]; try done.
  by destruct (Prim2SF y).
Qed.

End FloatFacts.

(** ** Invariants of the store *)

Section StoreFacts.

Context {Loader Heap ModelDict OptimDict : Type}.
Variable W : World Loader Heap ModelDict OptimDict.
Variable config : Config.
Variable data_loaders : gmap string Loader.

Abbreviation Rec := (EpochRecord Loader Heap ModelDict OptimDict).
Abbreviation the_run := (main W config data_loaders).

Lemma epoch_loop_final_invariant (P : Store Heap → Prop) sched :
  (∀ e s, P s → P (after (run_epoch W config data_loaders sched e s))) →
  ∀ epochs s, P s →
  P (final (epoch_loop W config data_loaders sched epochs s)).
Proof.
  intros Hstep epochs.
  induction epochs as [|e epochs IH]; intros s Hs; simpl; [done|].
  pose proof (Hstep e s Hs) as Hs'.
  destruct (result (run_epoch _ _ _ _ e s)) as [x|[|]]; simpl; auto.
Qed.

(** What every iteration of a run preserves holds of the store before
    and after each iteration and at the end. *)
Lemma main_invariant (P : Store Heap → Prop) h :
  P (init_store h) →
  (∀ sched, make_scheduler W config data_loaders = inr sched →
     ∀ e s, P s → P (after (run_epoch W config data_loaders sched e s))) →
  P (final (the_run h))
  ∧ ∀ (i : nat) (rec : Rec), log (the_run h) !! i = Some rec →
      P (before rec) ∧ P (after rec).
Proof.
  intros Hinit Hstep. unfold main.
  destruct (make_scheduler W config data_loaders) as [x|sched] eqn:Hsched.
  { split; [done | by intros [|?] ?]. }
  specialize (Hstep sched eq_refl). split.
  - by apply epoch_loop_final_invariant.
  - intros i rec Hlog.
    apply (epoch_loop_invariant W config data_loaders P sched Hstep _ _ Hinit)
      in Hlog as (Hbefore & Hrec & _).
    split; [done|]. rewrite Hrec. by apply Hstep.
Qed.

(** An iteration appends the accuracies its validation calls returned to
    the history and folds them into [best_val_acc]. *)
Lemma epoch_updates sched e s :
  (is_plateau config = true → is_Some (data_loaders !! "validation")) →
  val_acc_history (after (run_epoch W config data_loaders sched e s))
    = val_acc_history s
      ++ validation_accs (events (run_epoch W config data_loaders sched e s))
  ∧ best_val_acc (after (run_epoch W config data_loaders sched e s))
    = fold_left keep_best
        (validation_accs (events (run_epoch W config data_loaders sched e s)))
        (best_val_acc s).
Proof.
  intros Hassert.
  destruct (data_loaders !! "train") as [train_loader|] eqn:Htrain.
  2: { rewrite (run_epoch_no_train _ _ _ _ _ _ Htrain). simpl.
       by rewrite app_nil_r. }
  rewrite (run_epoch_summary _ _ _ sched e s train_loader Htrain Hassert).
  simpl. unfold epoch_events, validation_events, best_events,
    periodic_events, improved, validated, keep_best.
  destruct (data_loaders !! "validation"); simpl.
  - destruct (Py.float_gt _ _), (periodic_due _ _); done.
  - destruct (periodic_due _ _); simpl; by rewrite app_nil_r.
Qed.

Lemma validation_accs_app (evs evs' : list (Event Loader ModelDict OptimDict)) :
  validation_accs (evs ++ evs') = validation_accs evs ++ validation_accs evs'.
Proof. apply omap_app. Qed.

Lemma trace_cons_log (rec : Rec) r :
  trace (cons_log rec r) = events rec ++ trace r.
Proof. reflexivity. Qed.

Lemma loop_history sched epochs s :
  (is_plateau config = true → is_Some (data_loaders !! "validation")) →
  val_acc_history (final (epoch_loop W config data_loaders sched epochs s))
  = val_acc_history s
    ++ validation_accs
         (trace (epoch_loop W config data_loaders sched epochs s)).
Proof.
  intros Hassert. revert s.
  induction epochs as [|e epochs IH]; intros s; simpl.
  { by rewrite app_nil_r. }
  destruct (epoch_updates sched e s Hassert) as [Hhist _].
  destruct (result (run_epoch _ _ _ _ e s)) as [x|[|]]; simpl.
  1,2: unfold trace; simpl; by rewrite app_nil_r.
  rewrite trace_cons_log, validation_accs_app, IH, Hhist.
  by rewrite app_assoc.
Qed.

(** X6. At the end of every run [val_acc_history] holds exactly the
    accuracies the calls of [validation_epoch] returned, in the order of
    the calls. *)
Theorem history_records_validation h :
  val_acc_history (final (the_run h)) = validation_accs (trace (the_run h)).
Proof.
  unfold main.
  destruct (make_scheduler W config data_loaders) as [x|sched] eqn:Hsched.
  { reflexivity. }
  apply (loop_history sched _ (init_store h)).
  by apply (asserted_validation W config data_loaders sched).
Qed.

Lemma running_best_app history accs :
  running_best (history ++ accs)
  = fold_left keep_best accs (running_best history).
Proof. unfold running_best. apply fold_left_app. Qed.

(** X7. In every store of a run (before and after each iteration, and at
    the end) [best_val_acc] is what the comparison of line 182 makes of
    the recorded history, taken in order from 0.0. *)
Theorem best_is_running_best h :
  let tracked (st : Store Heap) :=
    best_val_acc st = running_best (val_acc_history st) in
  tracked (final (the_run h))
  ∧ ∀ (i : nat) (rec : Rec), log (the_run h) !! i = Some rec →
      tracked (before rec) ∧ tracked (after rec).
Proof.
  intros tracked. apply main_invariant; [reflexivity|].
  intros sched Hsched e s Hs. unfold tracked in *.
  destruct (epoch_updates sched e s
              (asserted_validation W config data_loaders sched Hsched))
    as [-> ->].
  by rewrite running_best_app, Hs.
Qed.

Lemma keep_best_sound best acc :
  PrimFloat.is_nan best = false ∧ Py.float_lt best 0 = false →
  PrimFloat.is_nan (keep_best best acc) = false
  ∧ Py.float_lt (keep_best best acc) 0 = false.
Proof.
  intros [Hnan Hneg]. unfold keep_best.
  destruct (Py.float_gt acc best) eqn:Hgt; [|done].
  split; [by apply (float_gt_not_nan acc best)|].
  by apply (float_gt_not_negative acc best).
Qed.

(** X8. Whatever the validation function returns, [best_val_acc] is never
    NaN and never below 0.0, in any store of any run. *)
Theorem best_is_a_number_not_below_zero h :
  let sound (st : Store Heap) :=
    PrimFloat.is_nan (best_val_acc st) = false
    ∧ Py.float_lt (best_val_acc st) 0 = false in
  sound (final (the_run h))
  ∧ ∀ (i : nat) (rec : Rec), log (the_run h) !! i = Some rec →
      sound (before rec) ∧ sound (after rec).
Proof.
  intros sound. apply main_invariant; [by vm_compute|].
  intros sched Hsched e s Hs. unfold sound in *.
  destruct (epoch_updates sched e s
              (asserted_validation W config data_loaders sched Hsched))
    as [_ ->].
  induction (validation_accs _) as [|acc accs IH] using rev_ind; [done|].
  rewrite fold_left_app. simpl. by apply keep_best_sound.
Qed.

End StoreFacts.

(** ** How a run ends *)

Section Endings.

Context {Loader Heap ModelDict OptimDict : Type}.
Variable W : World Loader Heap ModelDict OptimDict.
Variable config : Config.
Variable data_loaders : gmap string Loader.

Abbreviation Rec := (EpochRecord Loader Heap ModelDict OptimDict).
Abbreviation the_run := (main W config data_loaders).

Lemma last_of_lookup {A : Type} (l : list A) (i : nat) (x : A) :
  l !! i = Some x → l !! S i = None → last l = Some x.
Proof.
  intros Hi Hnext. rewrite last_lookup.
  apply lookup_lt_Some in Hi as Hlt. apply lookup_ge_None in Hnext.
  by replace (pred (length l)) with i by lia.
Qed.


Lemma main_stopped h e :
  outcome (the_run h) = EarlyStopped e →
  ∃ (i : nat) (rec : Rec),
    log (the_run h) !! i = Some rec ∧ ep rec = e ∧ result rec = inr true.
Proof.
  unfold main. destruct (make_scheduler _ _ _); [done|].
  apply epoch_loop_early.
Qed.

Lemma main_finished h :
  outcome (the_run h) = Finished →
  ep <$> log (the_run h)
    = Py.range (start_epoch config) (num_epochs config + 1)
  ∧ Forall (λ rec : Rec, result rec = inr false) (log (the_run h)).
Proof.
  unfold main. destruct (make_scheduler _ _ _) as [x|sched]; [done|].
  generalize (init_store h).
  induction (Py.range _ _) as [|e epochs IH]; intros s; simpl; [done|].
  destruct (result (run_epoch _ _ _ _ e s)) as [x|[|]] eqn:Hres;
    simpl; [done..|].
  intros H. destruct (IH _ H) as [Heps Hall]. rewrite run_epoch_ep.
  split; [by f_equal | by constructor].
Qed.

(** The result of one iteration, by cases. *)
Lemma epoch_result_cases sched e s :
  (is_plateau config = true → is_Some (data_loaders !! "validation")) →
  let rec := run_epoch W config data_loaders sched e s in
  (data_loaders !! "train" = None ∧ result rec = inl (Py.KeyError "train"))
  ∨ (is_Some (data_loaders !! "train") ∧ checkpoint_frequency config = 0
     ∧ result rec = inl Py.ZeroDivisionError)
  ∨ (is_Some (data_loaders !! "train") ∧ checkpoint_frequency config ≠ 0
     ∧ result rec =
         inr ((early_stopping_patience config <? e)
              && Py.all (λ acc, Py.float_lt acc (best_val_acc (after rec)))
                   (Py.slice_from (val_acc_history (after rec))
                      (- early_stopping_patience config)))).
Proof.
  intros Hassert rec. subst rec.
  destruct (data_loaders !! "train") as [train_loader|] eqn:Htrain.
  2: { left. by rewrite (run_epoch_no_train _ _ _ _ _ _ Htrain). }
  right.
  rewrite (run_epoch_summary _ _ _ sched e s train_loader Htrain Hassert).
  simpl. unfold epoch_result.
  destruct (Z.eqb_spec (checkpoint_frequency config) 0); [left | right]; eauto.
Qed.


(** X2. Without a training loader (scheduler built, non-empty range) the
    first iteration raises [KeyError('train')] before it calls anything:
    the run is that one iteration, it made no call and left the store as
    it was. *)
Theorem missing_train_loader h sched :
  data_loaders !! "train" = None →
  make_scheduler W config data_loaders = inr sched →
  start_epoch config ≤ num_epochs config →
  the_run h =
  {| log := [ {| ep := start_epoch config; before := init_store h;
                 events := []; after := init_store h;
                 result := inl (Py.KeyError "train") |} ];
     final := init_store h;
     outcome := Raised (Py.KeyError "train") |}.
Proof.
  intros Htrain Hsched Hrange. unfold main, Py.range.
  rewrite Hsched, seqZ_cons by lia. simpl.
  by rewrite (run_epoch_no_train _ _ _ _ _ _ Htrain).
Qed.

(** X3. With a [checkpoint_frequency] of 0 (training loader present,
    scheduler built, non-empty range) the run is one iteration that ends
    in [ZeroDivisionError]: it has trained, stepped the scheduler once and
    kept what it did to the store, but neither a periodic checkpoint nor
    the cleanup of the checkpoint directory took place. *)
Theorem frequency_zero_raises_in_first_epoch h sched train_loader :
  data_loaders !! "train" = Some train_loader →
  make_scheduler W config data_loaders = inr sched →
  start_epoch config ≤ num_epochs config →
  checkpoint_frequency config = 0 →
  ∃ (rec : Rec) ret rest,
    log (the_run h) = [rec]
    ∧ outcome (the_run h) = Raised Py.ZeroDivisionError
    ∧ final (the_run h) = after rec
    ∧ ep rec = start_epoch config
    ∧ before rec = init_store h
    ∧ events rec = EvTrainEpoch (start_epoch config) train_loader ret :: rest
    ∧ count is_step_event (events rec) = 1%nat
    ∧ Forall (λ ev, is_periodic_save config ev = false
                    ∧ is_cleanup_event ev = false) (events rec).
Proof.
  intros Htrain Hsched Hrange Hfreq.
  pose proof (asserted_validation W config data_loaders sched Hsched)
    as Hassert.
  exists (run_epoch W config data_loaders sched (start_epoch config)
            (init_store h)).
  unfold main, Py.range. rewrite Hsched, seqZ_cons by lia. simpl.
  rewrite (run_epoch_summary _ _ _ sched _ _ train_loader Htrain Hassert).
  simpl. unfold epoch_result, epoch_events, periodic_events, periodic_due.
  rewrite Hfreq. simpl. eexists _, _.
  do 6 (split; [reflexivity|]).
  unfold count, validation_events, best_events.
  destruct (data_loaders !! "validation"), (improved _ _ _ _ _); simpl;
    (split; [reflexivity|]); repeat constructor;
    apply String.eqb_neq; intros H;
    by apply (periodic_path_not_best config (start_epoch config)).
Qed.

(** X4. A run that ends by exhausting the range has visited every epoch
    of [range(start_epoch, num_epochs + 1)], in order, and no iteration
    broke or raised. *)
Theorem finished_visits_whole_range h :
  outcome (the_run h) = Finished →
  ep <$> log (the_run h)
    = Py.range (start_epoch config) (num_epochs config + 1)
  ∧ length (log (the_run h))
    = Z.to_nat (num_epochs config + 1 - start_epoch config)
  ∧ Forall (λ rec : Rec, result rec = inr false) (log (the_run h)).
Proof.
  intros Hout. destruct (main_finished h Hout) as [Heps Hall].
  split; [done|]. split; [|done].
  rewrite <- (length_fmap ep), Heps. apply length_seqZ.
Qed.

(** X5. A run that ends by [break] at epoch [e] does so in its last
    iteration, [e] lies in the range and is above the patience: the loop
    never stops early in an epoch up to [early_stopping_patience]. *)
Theorem early_stop_only_after_patience h e :
  outcome (main W config data_loaders h) = EarlyStopped e →
  early_stopping_patience config < e
  ∧ start_epoch config ≤ e ≤ num_epochs config
  ∧ last (ep <$> log (main W config data_loaders h)) = Some e.
Proof.
  intros Hout.
  apply main_stopped in Hout as (i & rec & Hlog & <- & Hres).
  pose proof Hlog as (sched & Hsched & _ & Hrec & Hep & Hnum)%main_lookup.
  split; [|split; [lia|]].
  - destruct (epoch_result_cases sched (ep rec) (before rec)
                (asserted_validation W config data_loaders sched Hsched))
      as [[? Hr]|[(? & ? & Hr)|(_ & _ & Hr)]];
      rewrite <- Hrec, Hres in Hr; [done..|].
    injection Hr as Hr. symmetry in Hr.
    apply andb_true_iff in Hr as [Hgate _]. lia.
  - destruct (main_last W config data_loaders h i rec Hlog) as [Hnext _].
    { by rewrite Hres. }
    apply (last_of_lookup _ i).
    + by rewrite list_lookup_fmap, Hlog.
    + by rewrite list_lookup_fmap, Hnext.
Qed.

End Endings.

(** ** Early stopping at the edges *)

Section Stopping.

Context {Loader Heap ModelDict OptimDict : Type}.
Variable W : World Loader Heap ModelDict OptimDict.
Variable config : Config.
Variable data_loaders : gmap string Loader.

Abbreviation Rec := (EpochRecord Loader Heap ModelDict OptimDict).
Abbreviation the_run := (main W config data_loaders).

(** For [k >= 0] the slice [l[-k:]] of a list that was just appended to
    ends with the element appended. *)
Lemma slice_from_snoc {A : Type} (l : list A) (x : A) (k : Z) :
  0 ≤ k → ∃ pre, Py.slice_from (l ++ [x]) (- k) = pre ++ [x].
Proof.
  intros Hk. unfold Py.slice_from. rewrite length_app. simpl.
  eexists. apply drop_app_le. case_ltb; lia.
Qed.

Lemma best_written_improved sched e s train_loader :
  existsb (is_best_save config)
    (epoch_events W config data_loaders sched e s train_loader)
  = improved W data_loaders e s train_loader.
Proof.
  pose proof (periodic_save_not_best W config data_loaders sched e s
                train_loader) as Hper.
  unfold epoch_events, validation_events, best_events, periodic_events.
  destruct (data_loaders !! "validation"), (improved _ _ _ _ _),
    (periodic_due _ _); simpl;
    rewrite ?String.eqb_refl; simpl in Hper; rewrite ?Hper; done.
Qed.

(** X9. With a patience of 0 or more, an iteration that writes
    [save_best.pth] does not break the loop: the accuracy that has just
    become the best is in the window the test looks at, and it is not
    below itself. *)
Theorem improving_epoch_never_breaks h (i : nat) (rec : Rec) train_loader
    validation_loader :
  data_loaders !! "train" = Some train_loader →
  data_loaders !! "validation" = Some validation_loader →
  0 ≤ early_stopping_patience config →
  log (the_run h) !! i = Some rec →
  existsb (is_best_save config) (events rec) = true →
  result rec ≠ inr true ∧ outcome (the_run h) ≠ EarlyStopped (ep rec).
Proof.
  intros Htrain Hval Hpatience Hlog Hbest.
  assert (Hres : result rec ≠ inr true).
  { pose proof Hlog
      as (sched & _ & _ & Hev & _ & Hres)%(main_record _ _ _ _ _ _ _ Htrain).
    rewrite Hev, best_written_improved in Hbest.
    destruct (validation_recorded W config data_loaders sched (ep rec)
                (before rec) train_loader _ Hval)
      as (_ & _ & Hhist & Himp & Hacc).
    rewrite Himp in Hbest. rewrite Hbest in Hacc.
    rewrite Hres. unfold epoch_result, stop_test.
    destruct (checkpoint_frequency config =? 0); [done|].
    rewrite Hhist, Hacc.
    destruct (slice_from_snoc (val_acc_history (before rec))
                (result_acc
                   (validation_epoch W validation_loader (ep rec)
                      (train_epoch W train_loader (ep rec)
                         (heap (before rec))).2).1)
                _ Hpatience) as [pre ->].
    unfold Py.all. rewrite forallb_app. simpl.
    rewrite float_lt_irrefl, andb_false_r, andb_false_r. done. }
  split; [done|]. intros Hout.
  by apply (main_early W config data_loaders h i rec Hlog) in Hout.
Qed.

Lemma running_best_in history :
  running_best history = 0%float ∨ running_best history ∈ history.
Proof.
  induction history as [|acc history IH] using rev_ind; [by left|].
  rewrite running_best_app. simpl. unfold keep_best.
  destruct (Py.float_gt acc (running_best history)).
  - right. apply elem_of_app. right. apply list_elem_of_here.
  - destruct IH as [->|Hin]; [by left|].
    right. apply elem_of_app. by left.
Qed.

(** X10. With a patience of 0 an iteration breaks the loop only if
    [best_val_acc] still is the initial 0.0 and every accuracy recorded
    so far is below 0.0: [val_acc_history[-0:]] is the whole history, and
    a best accuracy taken from it is not below itself. *)
Theorem patience_zero_breaks_only_below_zero h (i : nat) (rec : Rec) :
  early_stopping_patience config = 0 →
  log (the_run h) !! i = Some rec →
  result rec = inr true →
  best_val_acc (after rec) = 0%float
  ∧ Forall (λ acc, Py.float_lt acc 0 = true) (val_acc_history (after rec)).
Proof.
  intros Hpatience Hlog Hres.
  assert (Htracked :
            best_val_acc (after rec) = running_best (val_acc_history (after rec))).
  { apply (main_invariant W config data_loaders
             (λ st, best_val_acc st = running_best (val_acc_history st)) h)
      in Hlog as [_ Hafter]; [done | reflexivity |].
    intros sched Hsched e s Hs.
    destruct (epoch_updates W config data_loaders sched e s
                (asserted_validation W config data_loaders sched Hsched))
      as [-> ->].
    by rewrite running_best_app, Hs. }
  apply main_lookup in Hlog as (sched & Hsched & _ & Hrec & _).
  destruct (epoch_result_cases W config data_loaders sched (ep rec)
              (before rec)
              (asserted_validation W config data_loaders sched Hsched))
    as [[? Hr]|[(? & ? & Hr)|(_ & _ & Hr)]];
    rewrite <- Hrec, Hres in Hr; [done..|].
  injection Hr as Hr. symmetry in Hr.
  apply andb_true_iff in Hr as [_ Hall].
  rewrite Hpatience, slice_from_zero in Hall. apply all_Forall in Hall.
  destruct (running_best_in (val_acc_history (after rec))) as [Hzero|Hin].
  - rewrite Htracked, Hzero in *. done.
  - rewrite <- Htracked in Hin.
    rewrite Forall_forall in Hall. apply Hall in Hin.
    by rewrite float_lt_irrefl in Hin.
Qed.

(** X16. With a patience of 0 or more, an iteration whose validation
    accuracy is NaN neither writes [save_best.pth] nor breaks the loop, and
    leaves [best_val_acc] as it was: NaN is not above the best, and it is
    in the window without being below the best. *)
Theorem nan_accuracy_is_inert h (i : nat) (rec : Rec) train_loader
    validation_loader acc :
  data_loaders !! "train" = Some train_loader →
  data_loaders !! "validation" = Some validation_loader →
  0 ≤ early_stopping_patience config →
  log (the_run h) !! i = Some rec →
  val_acc (after rec) = Some acc →
  PrimFloat.is_nan acc = true →
  existsb (is_best_save config) (events rec) = false
  ∧ best_val_acc (after rec) = best_val_acc (before rec)
  ∧ result rec ≠ inr true.
Proof.
  intros Htrain Hval Hpatience Hlog Hacc Hnan.
  pose proof Hlog
    as (sched & _ & _ & Hev & Haf & Hres)%(main_record _ _ _ _ _ _ _ Htrain).
  destruct (validation_recorded W config data_loaders sched (ep rec)
              (before rec) train_loader _ Hval)
    as (_ & Hacc' & Hhist & Himp & Hbest).
  rewrite <- Haf, Hacc in Hacc'. injection Hacc' as Hacc'.
  rewrite <- Hacc' in *.
  destruct (float_nan_unordered acc (best_val_acc (before rec)) Hnan)
    as [Hlt Hgt].
  rewrite Hgt in Himp, Hbest.
  split; [by rewrite Hev, best_written_improved|].
  split; [by rewrite Haf|].
  rewrite Hres. unfold epoch_result, stop_test.
  destruct (checkpoint_frequency config =? 0); [done|].
  rewrite Hhist, Hbest.
  destruct (slice_from_snoc (val_acc_history (before rec)) acc _ Hpatience)
    as [pre ->].
  unfold Py.all. rewrite forallb_app. simpl.
  rewrite Hlt, andb_false_r, andb_false_r. done.
Qed.

(** X17. With a positive patience [k], when an iteration breaks the loop
    the best accuracy is older than the window: it is the initial 0.0 or
    was recorded before the last [k] entries of the history, and it is
    none of these last [k]. *)
Theorem break_means_best_is_old h (i : nat) (rec : Rec) :
  0 < early_stopping_patience config →
  log (the_run h) !! i = Some rec →
  result rec = inr true →
  let history := val_acc_history (after rec) in
  let k := Z.to_nat (early_stopping_patience config) in
  (best_val_acc (after rec) ∉ last_n k history)
  ∧ (best_val_acc (after rec) = 0%float
     ∨ best_val_acc (after rec) ∈ take (length history - k) history).
Proof.
  intros Hpatience Hlog Hres history k.
  assert (Htracked : best_val_acc (after rec) = running_best history).
  { apply (main_invariant W config data_loaders
             (λ st, best_val_acc st = running_best (val_acc_history st)) h)
      in Hlog as [_ Hafter]; [done | reflexivity |].
    intros sched Hsched e s Hs.
    destruct (epoch_updates W config data_loaders sched e s
                (asserted_validation W config data_loaders sched Hsched))
      as [-> ->].
    by rewrite running_best_app, Hs. }
  apply main_lookup in Hlog as (sched & Hsched & _ & Hrec & _).
  destruct (epoch_result_cases W config data_loaders sched (ep rec)
              (before rec)
              (asserted_validation W config data_loaders sched Hsched))
    as [[? Hr]|[(? & ? & Hr)|(_ & _ & Hr)]];
    rewrite <- Hrec, Hres in Hr; [done..|].
  injection Hr as Hr. symmetry in Hr.
  apply andb_true_iff in Hr as [_ Hall].
  rewrite slice_from_last_n in Hall by done. apply all_Forall in Hall.
  fold history k in Hall.
  assert (Hnot : best_val_acc (after rec) ∉ last_n k history).
  { intros Hin. rewrite Forall_forall in Hall. apply Hall in Hin.
    by rewrite float_lt_irrefl in Hin. }
  split; [done|].
  destruct (running_best_in history) as [Hzero|Hin].
  - left. by rewrite Htracked.
  - right. rewrite <- Htracked in Hin.
    assert (Hsplit : history = take (length history - k) history
                               ++ last_n k history)
      by (symmetry; apply take_drop).
    rewrite Hsplit in Hin.
    apply elem_of_app in Hin as [Hin|Hin]; [done|]. by destruct Hnot.
Qed.

End Stopping.

(** ** The calls of a whole run *)

Section WholeTrace.

Context {Loader Heap ModelDict OptimDict : Type}.
Variable W : World Loader Heap ModelDict OptimDict.
Variable config : Config.
Variable data_loaders : gmap string Loader.

Abbreviation Rec := (EpochRecord Loader Heap ModelDict OptimDict).
Abbreviation the_run := (main W config data_loaders).

Lemma count_app (p : Event Loader ModelDict OptimDict → bool) evs evs' :
  count p (evs ++ evs') = (count p evs + count p evs')%nat.
Proof. unfold count. by rewrite List.filter_app, length_app. Qed.

(** The calls of one iteration, counted. *)
Lemma epoch_calls sched e s train_loader :
  let evs := epoch_events W config data_loaders sched e s train_loader in
  train_epochs evs = [e]
  ∧ validation_epochs evs
    = match data_loaders !! "validation" with
      | Some _ => [e]
      | None => []
      end
  ∧ count is_step_event evs = 1%nat.
Proof.
  unfold epoch_events, validation_events, best_events, periodic_events,
    count.
  by destruct (data_loaders !! "validation"), (improved _ _ _ _ _),
    (periodic_due _ _).
Qed.

Lemma trace_one (rec : Rec) st o :
  trace {| log := [rec]; final := st; outcome := o |} = events rec.
Proof. unfold trace. simpl. apply app_nil_r. Qed.

Lemma loop_calls sched train_loader epochs s :
  data_loaders !! "train" = Some train_loader →
  (is_plateau config = true → is_Some (data_loaders !! "validation")) →
  let r := epoch_loop W config data_loaders sched epochs s in
  train_epochs (trace r) = ep <$> log r
  ∧ validation_epochs (trace r)
    = match data_loaders !! "validation" with
      | Some _ => ep <$> log r
      | None => []
      end
  ∧ count is_step_event (trace r) = length (log r).
Proof.
  intros Htrain Hassert. revert s.
  induction epochs as [|e epochs IH]; intros s.
  { simpl. by destruct (data_loaders !! "validation"). }
  destruct (epoch_calls sched e s train_loader) as (Ht & Hv & Hc).
  assert (Hev : events (run_epoch W config data_loaders sched e s)
                = epoch_events W config data_loaders sched e s train_loader).
  { by rewrite (run_epoch_summary W config data_loaders sched e s
                  train_loader Htrain Hassert). }
  cbn [epoch_loop].
  destruct (result (run_epoch _ _ _ _ e s)) as [x|[|]]; cbv zeta.
  1,2: rewrite trace_one, Hev, Ht, Hv, Hc; cbn [log];
    rewrite fmap_cons, run_epoch_ep;
    by destruct (data_loaders !! "validation").
  destruct (IH (after (run_epoch W config data_loaders sched e s)))
    as (IHt & IHv & IHc).
  rewrite trace_cons_log, Hev. cbn [log cons_log].
  rewrite fmap_cons, run_epoch_ep.
  unfold train_epochs, validation_epochs in *.
  rewrite !omap_app, count_app, IHt, IHv, IHc, Ht, Hv, Hc.
  by destruct (data_loaders !! "validation").
Qed.

(** X11. With a training loader, over the whole run: [train_epoch] is
    called once for every epoch visited, in order, with that epoch;
    [validation_epoch] likewise when there is a validation loader and
    never otherwise; and [scheduler.step] is called once per iteration. *)
Theorem every_epoch_trained_once h train_loader :
  data_loaders !! "train" = Some train_loader →
  train_epochs (trace (the_run h)) = ep <$> log (the_run h)
  ∧ validation_epochs (trace (the_run h))
    = match data_loaders !! "validation" with
      | Some _ => ep <$> log (the_run h)
      | None => []
      end
  ∧ count is_step_event (trace (the_run h)) = length (log (the_run h)).
Proof.
  intros Htrain. unfold main.
  destruct (make_scheduler W config data_loaders) as [x|sched] eqn:Hsched.
  { simpl. by destruct (data_loaders !! "validation"). }
  apply (loop_calls sched train_loader _ _ Htrain).
  by apply (asserted_validation W config data_loaders sched).
Qed.

End WholeTrace.

(** ** The milestones of the scheduler *)

Section Milestones.

Context {Loader Heap ModelDict OptimDict : Type}.
Variable W : World Loader Heap ModelDict OptimDict.
Variable config : Config.
Variable data_loaders : gmap string Loader.

Lemma split_cons (sep : ascii) (s : string) :
  ∃ piece pieces, Py.split sep s = piece :: pieces.
Proof.
  destruct s as [|c s]; simpl; [eauto|].
  destruct (Ascii.eqb c sep); [eauto|].
  destruct (Py.split sep s); eauto.
Qed.

(** Joining the pieces with the separator gives the string back. *)
Lemma split_join (sep : ascii) (s : string) :
  String.concat (String sep "") (Py.split sep s) = s.
Proof.
  induction s as [|c s IH]; [done|].
  cbn [Py.split]. destruct (Ascii.eqb_spec c sep) as [->|Hne].
  - destruct (split_cons sep s) as (piece & pieces & Hs).
    rewrite Hs in *.
    change (String sep (String.concat (String sep "") (piece :: pieces))
            = String sep s).
    by rewrite IH.
  - destruct (Py.split sep s) as [|piece [|piece' pieces]].
    + by rewrite <- IH.
    + by rewrite <- IH.
    + rewrite <- IH.
      change (String.concat (String sep "")
                (String c piece :: piece' :: pieces))
        with (String c piece +:+ String sep ""
              +:+ String.concat (String sep "") (piece' :: pieces)).
      by rewrite append_cons.
Qed.

(** No piece holds the separator. *)
Lemma split_pieces (sep : ascii) (s : string) :
  Forall (λ piece, sep ∉ list_ascii_of_string piece) (Py.split sep s).
Proof.
  induction s as [|c s IH]; simpl.
  { repeat constructor. simpl. apply not_elem_of_nil. }
  destruct (Ascii.eqb_spec c sep) as [->|Hne].
  - constructor; [|done]. simpl. apply not_elem_of_nil.
  - destruct (Py.split sep s) as [|piece pieces].
    + repeat constructor. simpl.
      intros [->|[]%elem_of_nil]%elem_of_cons. done.
    + inversion_clear IH as [|? ? Hpiece Hpieces].
      constructor; [|done]. simpl.
      intros [->|?]%elem_of_cons; done.
Qed.

Lemma int_each_spec pieces :
  match int_each W pieces with
  | inr ns => Forall2 (λ piece n, py_int W piece = Some n) pieces ns
  | inl e =>
      e = Py.ValueError ∧ Exists (λ piece, py_int W piece = None) pieces
  end.
Proof.
  induction pieces as [|piece pieces IH]; simpl; [constructor|].
  destruct (py_int W piece) as [n|] eqn:Hn.
  - destruct (int_each W pieces) as [e|ns].
    + destruct IH as [-> ?]. split; [done | by apply Exists_cons_tl].
    + by constructor.
  - split; [done | by apply Exists_cons_hd].
Qed.

(** X12. For a policy other than ['plateau'] the scheduler is built from
    the comma-separated fields of [lr_scheduler_milestones] (joined with
    [','] they give the option back, and none holds a comma): it is
    [MultiStepLR] with the integers [int] makes of the fields, one per
    field and in their order, and with [lr_scheduler_gamma]; if [int]
    rejects a field the construction raises [ValueError]. *)
Theorem milestones_from_fields :
  is_plateau config = false →
  let fields := Py.split "," (lr_scheduler_milestones config) in
  String.concat "," fields = lr_scheduler_milestones config
  ∧ Forall (λ field, ","%char ∉ list_ascii_of_string field) fields
  ∧ match make_scheduler W config data_loaders with
    | inr sched =>
        ∃ milestones,
          sched = MultiStepLR milestones (lr_scheduler_gamma config)
          ∧ Forall2 (λ field n, py_int W field = Some n) fields milestones
    | inl e =>
        e = Py.ValueError ∧ Exists (λ field, py_int W field = None) fields
    end.
Proof.
  intros Hp fields. split; [apply split_join|]. split; [apply split_pieces|].
  unfold make_scheduler. unfold is_plateau in Hp. rewrite Hp.
  pose proof (int_each_spec fields) as Hspec. fold fields.
  destruct (int_each W fields) as [e|ns]; [done|]. by exists ns.
Qed.

End Milestones.

(** ** The checkpoint files *)

Section Files.

Context {Loader Heap ModelDict OptimDict : Type}.
Variable W : World Loader Heap ModelDict OptimDict.
Variable config : Config.
Variable data_loaders : gmap string Loader.

Abbreviation Rec := (EpochRecord Loader Heap ModelDict OptimDict).
Abbreviation the_run := (main W config data_loaders).

Lemma length_append (a b : string) :
  String.length (a +:+ b) = (String.length a + String.length b)%nat.
Proof.
  induction a as [|c a IH]; [done|].
  rewrite append_cons. simpl. by rewrite IH.
Qed.

Lemma append_cancel_r (a b tail : string) :
  a +:+ tail = b +:+ tail → a = b.
Proof.
  revert b. induction a as [|c a IH]; intros [|c' b] H.
  - done.
  - apply (f_equal String.length) in H.
    rewrite !length_append in H. simpl in H. lia.
  - apply (f_equal String.length) in H.
    rewrite !length_append in H. simpl in H. lia.
  - rewrite !append_cons in H. injection H as -> H. f_equal. by apply IH.
Qed.

Lemma format_03d_inj (n m : Z) : Py.format_03d n = Py.format_03d m → n = m.
Proof.
  intros H. pose proof (read_format_03d n) as Hn.
  rewrite H, read_format_03d in Hn. by injection Hn.
Qed.

(** X13. The periodic checkpoints of two different epochs are two
    different files, for every epoch, negative or beyond three digits. *)
Theorem periodic_files_distinct (e1 e2 : Z) :
  e1 ≠ e2 →
  periodic_checkpoint_path config e1 ≠ periodic_checkpoint_path config e2.
Proof.
  intros Hne H. unfold periodic_checkpoint_path in H.
  apply os_path_join_inj in H; [|done..].
  apply append_cancel_l, append_cancel_r, format_03d_inj in H. lia.
Qed.

Lemma prefix_append (a b : string) : String.prefix a (a +:+ b) = true.
Proof.
  induction a as [|c a IH].
  - by destruct b.
  - rewrite append_cons. simpl. by destruct (ascii_dec c c).
Qed.

Lemma os_path_join_under (dir name : string) :
  Py.starts_with_sep name = false →
  String.prefix dir (Py.os_path_join dir name) = true.
Proof.
  intros Hname. unfold Py.os_path_join. rewrite Hname.
  destruct (_ || _); apply prefix_append.
Qed.

(** X14. With a training loader, the path of every checkpoint a run
    writes starts with [checkpoint_dir]. *)
Theorem checkpoints_under_checkpoint_dir h (i : nat) (rec : Rec)
    train_loader path e model_state optimizer_state :
  data_loaders !! "train" = Some train_loader →
  log (main W config data_loaders h) !! i = Some rec →
  EvSaveCheckpoint path e model_state optimizer_state ∈ events rec →
  String.prefix (checkpoint_dir config) path = true.
Proof.
  intros Htrain Hlog Hin.
  apply (main_record _ _ _ _ _ _ _ Htrain) in Hlog
    as (sched & _ & _ & Hev & _ & _).
  rewrite Hev in Hin.
  apply saves_of_epoch in Hin as [[=]|[[=] _]]; subst;
    by apply os_path_join_under.
Qed.

End Files.

(** ** The end of the script *)

Section ScriptEnd.

Context {Loader Heap ModelDict OptimDict : Type}.
Variable W : World Loader Heap ModelDict OptimDict.
Variable export_scalars_to_json : Writer → string → Heap → Heap.
Variable writer_close : Writer → Heap → Heap.
Variable config : Config.
Variable data_loaders : gmap string Loader.

Abbreviation the_run := (main W config data_loaders).


End ScriptEnd.

(** ** The further properties on concrete runs *)

Section MoreWitnesses.

Import Demo.

Abbreviation milestones_cfg := (cfg "multistep" 0 5 2 2).
Abbreviation start_heap := ((0, 0)%nat : Heap).

(** The runs used below. *)
Example further_runs :
  outcome run_no_train = Raised (Py.KeyError "train")
  ∧ outcome run_frequency_0 = Raised Py.ZeroDivisionError
  ∧ outcome run_unasserted = Raised Py.AssertionError
  ∧ outcome run_negative = EarlyStopped 1
  ∧ (ep <$> log run_nan = [0; 1; 2; 3; 4; 5]
     ∧ outcome run_nan = Finished)
  ∧ ended script_no_tensorboard
    = Some (AttributeError "NoneType" "export_scalars_to_json").
Proof. vm_compute. repeat split. Qed.


Lemma missing_train_loader_witness :
  no_loaders !! "train" = None
  ∧ make_scheduler (world flat) milestones_cfg no_loaders
    = inr (MultiStepLR [30; 60] 0.125%float)
  ∧ start_epoch milestones_cfg ≤ num_epochs milestones_cfg
  ∧ outcome run_no_train = Raised (Py.KeyError "train")
  ∧ events <$> log run_no_train = [[]].
Proof.
  assert (Htrain : no_loaders !! "train" = None) by reflexivity.
  assert (Hsched : make_scheduler (world flat) milestones_cfg no_loaders
                   = inr (MultiStepLR [30; 60] 0.125%float))
    by (vm_compute; reflexivity).
  assert (Hrange : start_epoch milestones_cfg ≤ num_epochs milestones_cfg)
    by (simpl; lia).
  split; [exact Htrain | split; [exact Hsched | split; [exact Hrange|]]].
  unfold run_no_train.
  rewrite (missing_train_loader (world flat) milestones_cfg no_loaders
             start_heap _ Htrain Hsched Hrange).
  split; reflexivity.
Defined.

Lemma frequency_zero_raises_in_first_epoch_witness :
  both_loaders !! "train" = Some "train-set"
  ∧ make_scheduler (world flat) (cfg "multistep" 0 3 0 2) both_loaders
    = inr (MultiStepLR [30; 60] 0.125%float)
  ∧ start_epoch (cfg "multistep" 0 3 0 2)
    ≤ num_epochs (cfg "multistep" 0 3 0 2)
  ∧ checkpoint_frequency (cfg "multistep" 0 3 0 2) = 0
  ∧ ∃ rec, log run_frequency_0 = [rec]
           ∧ outcome run_frequency_0 = Raised Py.ZeroDivisionError
           ∧ count is_step_event (events rec) = 1%nat.
Proof.
  assert (Htrain : both_loaders !! "train" = Some "train-set")
    by reflexivity.
  assert (Hsched : make_scheduler (world flat) (cfg "multistep" 0 3 0 2)
                     both_loaders
                   = inr (MultiStepLR [30; 60] 0.125%float))
    by (vm_compute; reflexivity).
  assert (Hrange : start_epoch (cfg "multistep" 0 3 0 2)
                   ≤ num_epochs (cfg "multistep" 0 3 0 2)) by (simpl; lia).
  assert (Hfreq : checkpoint_frequency (cfg "multistep" 0 3 0 2) = 0)
    by reflexivity.
  split; [exact Htrain | split; [exact Hsched | split; [exact Hrange|]]].
  split; [exact Hfreq|].
  destruct (frequency_zero_raises_in_first_epoch (world flat)
              (cfg "multistep" 0 3 0 2) both_loaders start_heap _ _
              Htrain Hsched Hrange Hfreq)
    as (rec & _ & _ & Hlog & Hout & _ & _ & _ & _ & Hcount & _).
  exists rec. split; [exact Hlog | split; [exact Hout | exact Hcount]].
Defined.

Lemma finished_visits_whole_range_witness :
  outcome run_patience_0 = Finished
  ∧ ep <$> log run_patience_0 = Py.range 0 (3 + 1)
  ∧ length (log run_patience_0) = Z.to_nat (3 + 1 - 0).
Proof.
  assert (Hout : outcome run_patience_0 = Finished)
    by (vm_compute; reflexivity).
  split; [exact Hout|].
  destruct (finished_visits_whole_range (world flat)
              (cfg "multistep" 0 3 1 0) both_loaders start_heap Hout)
    as (Heps & Hlen & _).
  split; [exact Heps | exact Hlen].
Defined.

Lemma early_stop_only_after_patience_witness :
  outcome run_milestones = EarlyStopped 3
  ∧ early_stopping_patience milestones_cfg < 3
  ∧ start_epoch milestones_cfg ≤ 3 ≤ num_epochs milestones_cfg
  ∧ last (ep <$> log run_milestones) = Some 3.
Proof.
  assert (Hout : outcome run_milestones = EarlyStopped 3)
    by (vm_compute; reflexivity).
  split; [exact Hout|].
  exact (early_stop_only_after_patience (world peak_at_1) milestones_cfg
           both_loaders start_heap 3 Hout).
Defined.

Lemma improving_epoch_never_breaks_witness :
  both_loaders !! "train" = Some "train-set"
  ∧ both_loaders !! "validation" = Some "validation-set"
  ∧ 0 ≤ early_stopping_patience milestones_cfg
  ∧ log run_milestones !! 1%nat = Some (record_at run_milestones 1)
  ∧ existsb (is_best_save milestones_cfg)
      (events (record_at run_milestones 1)) = true
  ∧ result (record_at run_milestones 1) ≠ inr true.
Proof.
  assert (Htrain : both_loaders !! "train" = Some "train-set")
    by reflexivity.
  assert (Hval : both_loaders !! "validation" = Some "validation-set")
    by reflexivity.
  assert (Hpatience : 0 ≤ early_stopping_patience milestones_cfg)
    by (simpl; lia).
  assert (Hlog : log run_milestones !! 1%nat
                 = Some (record_at run_milestones 1))
    by (vm_compute; reflexivity).
  assert (Hbest : existsb (is_best_save milestones_cfg)
                    (events (record_at run_milestones 1)) = true)
    by (vm_compute; reflexivity).
  split; [exact Htrain | split; [exact Hval | split; [exact Hpatience|]]].
  split; [exact Hlog | split; [exact Hbest|]].
  destruct (improving_epoch_never_breaks (world peak_at_1) milestones_cfg
              both_loaders start_heap 1%nat _ "train-set" "validation-set"
              Htrain Hval Hpatience Hlog Hbest) as [Hres _].
  exact Hres.
Defined.

Lemma patience_zero_breaks_only_below_zero_witness :
  early_stopping_patience (cfg "multistep" 0 3 1 0) = 0
  ∧ log run_negative !! 1%nat = Some (record_at run_negative 1)
  ∧ result (record_at run_negative 1) = inr true
  ∧ best_val_acc (after (record_at run_negative 1)) = 0%float
  ∧ Forall (λ acc, Py.float_lt acc 0 = true)
      (val_acc_history (after (record_at run_negative 1))).
Proof.
  assert (Hpatience : early_stopping_patience (cfg "multistep" 0 3 1 0) = 0)
    by reflexivity.
  assert (Hlog : log run_negative !! 1%nat = Some (record_at run_negative 1))
    by (vm_compute; reflexivity).
  assert (Hres : result (record_at run_negative 1) = inr true)
    by (vm_compute; reflexivity).
  split; [exact Hpatience | split; [exact Hlog | split; [exact Hres|]]].
  exact (patience_zero_breaks_only_below_zero (world negative)
           (cfg "multistep" 0 3 1 0) both_loaders start_heap 1%nat _
           Hpatience Hlog Hres).
Defined.

Lemma every_epoch_trained_once_witness :
  both_loaders !! "train" = Some "train-set"
  ∧ train_epochs (trace run_milestones) = ep <$> log run_milestones
  ∧ count is_step_event (trace run_milestones)
    = length (log run_milestones).
Proof.
  assert (Htrain : both_loaders !! "train" = Some "train-set")
    by reflexivity.
  split; [exact Htrain|].
  destruct (every_epoch_trained_once (world peak_at_1) milestones_cfg
              both_loaders start_heap "train-set" Htrain)
    as (Ht & _ & Hc).
  split; [exact Ht | exact Hc].
Defined.

Lemma milestones_from_fields_witness :
  is_plateau milestones_cfg = false
  ∧ String.concat ","
      (Py.split "," (lr_scheduler_milestones milestones_cfg))
    = lr_scheduler_milestones milestones_cfg.
Proof.
  assert (Hp : is_plateau milestones_cfg = false) by reflexivity.
  split; [exact Hp|].
  destruct (milestones_from_fields (world flat) milestones_cfg both_loaders
              Hp) as [Hjoin _].
  exact Hjoin.
Defined.

Lemma periodic_files_distinct_witness :
  0 ≠ 1
  ∧ periodic_checkpoint_path milestones_cfg 0
    ≠ periodic_checkpoint_path milestones_cfg 1.
Proof.
  assert (Hne : 0 ≠ 1) by lia.
  split; [exact Hne|].
  exact (periodic_files_distinct milestones_cfg 0 1 Hne).
Defined.

Lemma checkpoints_under_checkpoint_dir_witness :
  both_loaders !! "train" = Some "train-set"
  ∧ log run_milestones !! 0%nat = Some (record_at run_milestones 0)
  ∧ EvSaveCheckpoint "/tmp/checkpoints/save_001.pth" 0 1%nat 2%nat
      ∈ events (record_at run_milestones 0)
  ∧ String.prefix (checkpoint_dir milestones_cfg)
      "/tmp/checkpoints/save_001.pth" = true.
Proof.
  assert (Htrain : both_loaders !! "train" = Some "train-set")
    by reflexivity.
  assert (Hlog : log run_milestones !! 0%nat
                 = Some (record_at run_milestones 0))
    by (vm_compute; reflexivity).
  assert (Hin : EvSaveCheckpoint "/tmp/checkpoints/save_001.pth" 0 1%nat
                  2%nat ∈ events (record_at run_milestones 0))
    by (vm_compute; repeat constructor).
  split; [exact Htrain | split; [exact Hlog | split; [exact Hin|]]].
  exact (checkpoints_under_checkpoint_dir (world peak_at_1) milestones_cfg
           both_loaders start_heap 0%nat _ "train-set" _ _ _ _ Htrain Hlog
           Hin).
Defined.


Lemma nan_accuracy_is_inert_witness :
  both_loaders !! "train" = Some "train-set"
  ∧ both_loaders !! "validation" = Some "validation-set"
  ∧ 0 ≤ early_stopping_patience milestones_cfg
  ∧ log run_nan !! 1%nat = Some (record_at run_nan 1)
  ∧ val_acc (after (record_at run_nan 1)) = Some PrimFloat.nan
  ∧ PrimFloat.is_nan PrimFloat.nan = true
  ∧ best_val_acc (after (record_at run_nan 1))
    = best_val_acc (before (record_at run_nan 1))
  ∧ result (record_at run_nan 1) ≠ inr true.
Proof.
  assert (Htrain : both_loaders !! "train" = Some "train-set")
    by reflexivity.
  assert (Hval : both_loaders !! "validation" = Some "validation-set")
    by reflexivity.
  assert (Hpatience : 0 ≤ early_stopping_patience milestones_cfg)
    by (simpl; lia).
  assert (Hlog : log run_nan !! 1%nat = Some (record_at run_nan 1))
    by (vm_compute; reflexivity).
  assert (Hacc : val_acc (after (record_at run_nan 1)) = Some PrimFloat.nan)
    by (vm_compute; reflexivity).
  assert (Hnan : PrimFloat.is_nan PrimFloat.nan = true)
    by (vm_compute; reflexivity).
  split; [exact Htrain | split; [exact Hval | split; [exact Hpatience|]]].
  split; [exact Hlog | split; [exact Hacc | split; [exact Hnan|]]].
  destruct (nan_accuracy_is_inert (world nan_at_1) milestones_cfg
              both_loaders start_heap 1%nat _ "train-set" "validation-set"
              _ Htrain Hval Hpatience Hlog Hacc Hnan)
    as (_ & Hbest & Hres).
  split; [exact Hbest | exact Hres].
Defined.

Lemma break_means_best_is_old_witness :
  0 < early_stopping_patience milestones_cfg
  ∧ log run_milestones !! 3%nat = Some (record_at run_milestones 3)
  ∧ result (record_at run_milestones 3) = inr true
  ∧ best_val_acc (after (record_at run_milestones 3))
    ∉ last_n (Z.to_nat (early_stopping_patience milestones_cfg))
        (val_acc_history (after (record_at run_milestones 3))).
Proof.
  assert (Hpatience : 0 < early_stopping_patience milestones_cfg)
    by (simpl; lia).
  assert (Hlog : log run_milestones !! 3%nat
                 = Some (record_at run_milestones 3))
    by (vm_compute; reflexivity).
  assert (Hres : result (record_at run_milestones 3) = inr true)
    by (vm_compute; reflexivity).
  split; [exact Hpatience | split; [exact Hlog | split; [exact Hres|]]].
  destruct (break_means_best_is_old (world peak_at_1) milestones_cfg
              both_loaders start_heap 3%nat _ Hpatience Hlog Hres)
    as [Hnot _].
  exact Hnot.
Defined.

End MoreWitnesses.
